(** * vscode-makefile-tools: make operations and launch support

    A shallow embedding of [src/make.ts] (build, dry-run, pre-configure) and of
    the [Launcher] class (debug and run in terminal), together with the
    properties of the build/launch layer stated in the specification.

    The TypeScript code is sequential glue around external collaborators
    (logger, vscode API, file system, child processes).  Every call to a
    collaborator is recorded as an [Event] in a chronological trace, so that
    statements such as "no process is spawned" or "the file is probed once"
    are statements about that trace.  [await] is sequencing. *)

From Stdlib Require Import String Ascii List ZArith Bool Lia.
From stdpp Require Import base option gmap strings list.

Open Scope string_scope.
Open Scope list_scope.

(** ** JavaScript values *)

Module JS.

(** [if (s)] on a string: the empty string is falsy. *)
Definition truthy (s : string) : bool := negb (String.eqb s "").

(** [if (x)] on a [string | undefined]. *)
Definition truthyOpt (x : option string) : bool :=
  match x with
  | Some s => truthy s
  | None => false
  end.

(** [if (b)] on a [boolean | undefined]. *)
Definition truthyBool (b : option bool) : bool :=
  match b with
  | Some true => true
  | _ => false
  end.

(** [x || d] on a [string | undefined] with a string default. *)
Definition orElse (x : option string) (d : string) : string :=
  match x with
  | Some s => if truthy s then s else d
  | None => d
  end.

(** [Array.prototype.join] on a [string[]]. *)
Definition join (sep : string) (l : list string) : string := String.concat sep l.

(** [String.prototype.startsWith]. *)
Definition startsWith (s pre : string) : bool := String.prefix pre s.

(** A [string | undefined] inside a string concatenation. *)
Definition toString (x : option string) : string :=
  match x with
  | Some s => s
  | None => "undefined"
  end.

(** The double-quote character, as a one-character string. *)
Definition dquote : string := String "034"%char EmptyString.

End JS.

(** ** The [path] module

    [path.parse] and [path.join] belong to the Node runtime; the launcher is
    parametric in them (fields of [Host] below).  [Posix] is the POSIX flavour,
    used to run the launcher on concrete paths. *)

Record ParsedPath := {
  root : string;
  dir : string;
  base : string;
  ext : string;
  name : string
}.

Module Posix.

Definition isSep (c : ascii) : bool := Ascii.eqb c "/"%char.

(** The components between separators; empty components are kept. *)
Fixpoint split (s : string) : list string :=
  match s with
  | EmptyString => [EmptyString]
  | String c s' =>
      if isSep c then EmptyString :: split s'
      else match split s' with
           | seg :: rest => String c seg :: rest
           | [] => [String c EmptyString]
           end
  end.

Definition isAbsolute (p : string) : bool :=
  match p with
  | String c _ => isSep c
  | EmptyString => false
  end.

Fixpoint endsWithSep (p : string) : bool :=
  match p with
  | EmptyString => false
  | String c EmptyString => isSep c
  | String _ p' => endsWithSep p'
  end.

(** One component of [normalizeString]; [stack] holds the kept components,
    last one first. *)
Definition normalizeStep (allowAboveRoot : bool) (stack : list string) (seg : string)
  : list string :=
  if String.eqb seg "" || String.eqb seg "." then stack
  else if String.eqb seg ".." then
    match stack with
    | top :: rest => if String.eqb top ".." then seg :: stack else rest
    | [] => if allowAboveRoot then [seg] else []
    end
  else seg :: stack.

Definition normalizeString (p : string) (allowAboveRoot : bool) : string :=
  String.concat "/" (rev (fold_left (normalizeStep allowAboveRoot) (split p) [])).

Definition normalize (p : string) : string :=
  if String.eqb p "" then "."
  else
    let body := normalizeString p (negb (isAbsolute p)) in
    if String.eqb body "" then
      if isAbsolute p then "/" else if endsWithSep p then "./" else "."
    else
      let body := if endsWithSep p then body +:+ "/" else body in
      if isAbsolute p then "/" +:+ body else body.

(** [path.join(a, b)]: empty arguments are skipped. *)
Definition join (a b : string) : string :=
  if String.eqb a "" then
    if String.eqb b "" then "." else normalize b
  else if String.eqb b "" then normalize a
  else normalize (a +:+ "/" +:+ b).

(** The part before the last dot and the part from it on. *)
Fixpoint splitExt (s : string) : option (string * string) :=
  match s with
  | EmptyString => None
  | String c s' =>
      match splitExt s' with
      | Some (n, e) => Some (String c n, e)
      | None => if Ascii.eqb c "."%char then Some (EmptyString, s) else None
      end
  end.

Fixpoint dropTrailingEmpty (segs : list string) : list string :=
  match segs with
  | [] => []
  | seg :: rest =>
      match dropTrailingEmpty rest with
      | [] => if String.eqb seg "" then [] else [seg]
      | rest' => seg :: rest'
      end
  end.

(** [path.parse].  A base that is [..] has no extension, except directly under
    the root ([/..]), where Node splits it into the name [.] and the extension
    [.]. *)
Definition parse (p : string) : ParsedPath :=
  let abs := isAbsolute p in
  let segs := dropTrailingEmpty (split p) in
  let b := List.last segs "" in
  let before := String.concat "/" (removelast segs) in
  let underRoot := abs && String.eqb before "" in
  let d := if underRoot then "/" else before in
  let '(n, e) :=
    match splitExt b with
    | Some (n, e) =>
        if String.eqb n "" || (String.eqb b ".." && negb underRoot) then (b, "") else (n, e)
    | None => (b, "")
    end in
  {| root := if abs then "/" else ""; dir := d; base := b; ext := e; name := n |}.

End Posix.

(** ** Data of the extension *)

(** [configuration.LaunchConfiguration]. *)
Record LaunchConfiguration := {
  binary : string;
  cwd : string;
  args : list string
}.

(** [vscode.DebugConfiguration] as built by [debugCurrentTarget]. *)
Record DebugConfiguration := {
  dc_type : string;
  dc_name : string;
  dc_request : string;
  dc_cwd : string;
  dc_args : list string;
  dc_program : string;
  dc_miMode : option string;
  dc_miDebuggerPath : option string
}.

(** [vscode.TerminalOptions]. *)
Record TerminalOptions := {
  to_name : string;
  to_shellPath : option string;
  to_cwd : option string
}.

(** Objects of the vscode API are compared by identity ([===]); a handle stands
    for the object. *)
Definition Terminal := nat.
Definition DebugSession := nat.
Definition WorkspaceFolder := string.

(** One chunk of output of a child process. *)
Inductive Fragment :=
| Stdout (text : string)
| Stderr (text : string).

(** What a spawned process does: the spawn itself fails, or the process emits
    its output fragments and then closes with a return code and a signal. *)
Inductive ProcessRun :=
| SpawnError (error : string)
| Exit (output : list Fragment) (retCode : Z) (signal : string).

(** Calls to the collaborators, in the order they happen. *)
Inductive Event :=
| LogMessage (text : string)
| LogMessageNoCR (text : string)
| ShowErrorMessage (text : string)
| UpdateProvider (text : string)
| ReportDryRunError
| SpawnChildProcess (process : string) (args : list string) (cwd : string)
| WriteFileSync (path content : string)
| CheckFileExistsSync (path : string)
| ReadFile (path : string)
| GetCompilerFullPath
| StartDebugging (folder : option WorkspaceFolder) (config : DebugConfiguration)
| CreateTerminal (options : TerminalOptions) (terminal : Terminal)
| SendText (terminal : Terminal) (text : string)
| ShowTerminal (terminal : Terminal).

(** The configuration provider ([./configuration]). *)
Record Configuration := {
  getCurrentTarget : option string;
  getConfigurationMakeArgs : list string;
  getConfigurationMakeCommand : string;
  getDryRunSwitches : option (list string);
  getConfigurationBuildLog : option string;
  getDryrunCache : string;
  getPreconfigureScript : option string;
  getCurrentLaunchConfiguration : option LaunchConfiguration
}.

(** The extension object [extension.extension], as far as the launcher uses
    it: what its [getCompilerFullPath()] returns. *)
Record MakefileToolsExtension := {
  compilerFullPath : option string
}.

(** The environment the extension runs in.  [writeErrors] gives the error
    [fs.writeFileSync] throws for a path it cannot write (a missing directory,
    no permission); [rejectsCallbackErrors] says what the process spawner does
    when the closing callback throws: fail its awaitable with the error, or
    let the exception escape. *)
Record Host := {
  platform : string;                                  (* process.platform *)
  path_parse : string → ParsedPath;                   (* path.parse *)
  path_join : string → string → string;               (* path.join *)
  rootPath : option string;                           (* vscode.workspace.rootPath *)
  workspaceFolders : option (list WorkspaceFolder);   (* vscode.workspace.workspaceFolders *)
  extension : option MakefileToolsExtension;          (* extension.extension *)
  processes : string → list string → string → ProcessRun;
  writeErrors : string → option string;
  rejectsCallbackErrors : bool;
  debugSessions : option WorkspaceFolder → DebugConfiguration → option DebugSession;
  configuration : Configuration
}.

(** The value of [extension.extension?.getCompilerFullPath()]: [undefined] when
    there is no extension object. *)
Definition getCompilerFullPath (h : Host) : option string :=
  extension h ≫= compilerFullPath.

(** The error [fs.writeFileSync] throws for [path], if any; the empty path can
    never be written. *)
Definition writeFailure (h : Host) (path : string) : option string :=
  if String.eqb path "" then Some "ENOENT: no such file or directory, open ''"
  else writeErrors h path.

(** The mutable part: the trace, the files on disk as this code reads and
    writes them (what a spawned process does to the disk is not part of the
    model), the terminal retained by the [Launcher], the number of terminals
    created so far and the active debug session. *)
Record World := {
  trace : list Event;
  files : gmap string string;
  launchTerminal : option Terminal;
  terminals : nat;
  activeDebugSession : option DebugSession
}.

(** ** Effects *)

Definition M (A : Type) : Type := World → A * World.

#[global] Instance M_ret : MRet M := λ A a w, (a, w).
#[global] Instance M_bind : MBind M := λ A B f m w, let '(a, w') := m w in f a w'.

(** The empty statement. *)
Definition skip : M unit := mret tt.

Definition emit (e : Event) : M unit :=
  λ w, (tt, {| trace := trace w ++ [e]; files := files w;
               launchTerminal := launchTerminal w; terminals := terminals w;
               activeDebugSession := activeDebugSession w |}).

Definition getFiles : M (gmap string string) := λ w, (files w, w).

Definition setFiles (fs : gmap string string) : M unit :=
  λ w, (tt, {| trace := trace w; files := fs;
               launchTerminal := launchTerminal w; terminals := terminals w;
               activeDebugSession := activeDebugSession w |}).

Definition getLaunchTerminal : M (option Terminal) := λ w, (launchTerminal w, w).

Definition setLaunchTerminal (t : option Terminal) : M unit :=
  λ w, (tt, {| trace := trace w; files := files w;
               launchTerminal := t; terminals := terminals w;
               activeDebugSession := activeDebugSession w |}).

Definition getActiveDebugSession : M (option DebugSession) := λ w, (activeDebugSession w, w).

Definition setActiveDebugSession (s : option DebugSession) : M unit :=
  λ w, (tt, {| trace := trace w; files := files w;
               launchTerminal := launchTerminal w; terminals := terminals w;
               activeDebugSession := s |}).

(** A terminal object that no earlier call has returned. *)
Definition freshTerminal : M Terminal :=
  λ w, (terminals w, {| trace := trace w; files := files w;
                        launchTerminal := launchTerminal w; terminals := S (terminals w);
                        activeDebugSession := activeDebugSession w |}).

Fixpoint foldM {A S : Type} (f : S → A → M S) (s : S) (l : list A) : M S :=
  match l with
  | [] => mret s
  | a :: l' => s' ← f s a; foldM f s' l'
  end.

(** Unfold the monad and compute. *)
Ltac run :=
  unfold skip, emit, getFiles, setFiles in *; unfold mbind, M_bind, mret, M_ret in *; cbn in *.

(** ** Collaborators *)

Module logger.
Definition message (text : string) : M unit := emit (LogMessage text).
Definition messageNoCR (text : string) : M unit := emit (LogMessageNoCR text).
End logger.

Module ext.
Definition updateProvider (text : string) : M unit := emit (UpdateProvider text).
End ext.

Module fs.
(** [fs.writeFileSync]: the file holds the content afterwards, or the call
    throws ([inl]) and the file system is unchanged. *)
Definition writeFileSync (h : Host) (path content : string) : M (string + unit) :=
  emit (WriteFileSync path content);;
  match writeFailure h path with
  | Some error => mret (inl error)
  | None =>
      fs ← getFiles;
      setFiles (<[path := content]> fs);;
      mret (inr tt)
  end.
End fs.

Module util.

(** Modelled from the spec: [util.checkFileExistsSync] ([util.ts] is not among
    the sources), the synchronous check-exists primitive of section 6: whether a
    file is found on disk at the path. *)
Definition checkFileExistsSync (path : string) : M bool :=
  emit (CheckFileExistsSync path);;
  fs ← getFiles;
  mret (bool_decide (is_Some (fs !! path))).

(** Modelled from the spec: [util.readFile] ([util.ts] is not among the
    sources), the whole-file-read primitive of section 6: the full contents of
    the file, [undefined] when there is no file. *)
Definition readFile (path : string) : M (option string) :=
  emit (ReadFile path);;
  fs ← getFiles;
  mret (fs !! path).

(** Modelled from the spec: [util.reportDryRunError] ([util.ts] is not among
    the sources), the "report dry-run error" signal of section 4.1. *)
Definition reportDryRunError : M unit := emit ReportDryRunError.

(** Modelled from the spec: [util.spawnChildProcess] ([util.ts] is not among
    the sources), the process spawner of section 6: it invokes the command;
    a spawn-time error fails the awaitable ([inl]); otherwise the output
    callbacks run for each fragment, in order, and then the closing callback
    runs exactly once.  The callbacks of the callers are closures over local
    variables; [S] is the type of those variables.  The closing callback may
    throw ([inl]): the spec does not say what the spawner does then, so the
    host decides whether the awaitable fails with the error or the exception
    escapes and the awaitable settles. *)
Definition spawnChildProcess {S : Type} (h : Host)
    (process : string) (args : list string) (cwd : string)
    (stdoutCallback stderrCallback : string → S → M S)
    (closeCallback : Z → string → S → M (string + S)) (locals : S) : M (string + S) :=
  emit (SpawnChildProcess process args cwd);;
  match processes h process args cwd with
  | SpawnError error => mret (inl error)
  | Exit output retCode signal =>
      s ← foldM (λ s fragment,
                  match fragment with
                  | Stdout text => stdoutCallback text s
                  | Stderr text => stderrCallback text s
                  end) locals output;
      closed ← closeCallback retCode signal s;
      match closed with
      | inr s' => mret (inr s')
      | inl error => if rejectsCallbackErrors h then mret (inl error) else mret (inr s)
      end
  end.

End util.

Module vscode.
Definition showErrorMessage (text : string) : M unit := emit (ShowErrorMessage text).

Definition createTerminal (options : TerminalOptions) : M Terminal :=
  t ← freshTerminal;
  emit (CreateTerminal options t);;
  mret t.

Definition sendText (t : Terminal) (text : string) : M unit := emit (SendText t text).
Definition show (t : Terminal) : M unit := emit (ShowTerminal t).

Definition startDebugging (h : Host) (folder : option WorkspaceFolder)
    (config : DebugConfiguration) : M unit :=
  emit (StartDebugging folder config);;
  setActiveDebugSession (debugSessions h folder config).
End vscode.

(** ** [make.ts] *)

(** The local variables captured by the callbacks of a spawn. *)
Record Captured := {
  stdoutStr : string;
  stderrStr : string
}.

Section Make.

Context (h : Host).

Definition prepareBuildCurrentTarget : M (list string) :=
  let makeArgs : list string := [] in
  (* Prepend the target to the arguments given in the configurations json. *)
  let currentTarget := getCurrentTarget (configuration h) in
  let makeArgs :=
    match currentTarget with
    | Some target => if JS.truthy target then makeArgs ++ [target] else makeArgs
    | None => makeArgs
    end in
  let makeArgs := makeArgs ++ getConfigurationMakeArgs (configuration h) in
  logger.message ("Building the current target. Command: "
                  +:+ getConfigurationMakeCommand (configuration h)
                  +:+ " " +:+ JS.join " " makeArgs);;
  mret makeArgs.

Definition buildCurrentTarget : M unit :=
  makeArgs ← prepareBuildCurrentTarget;
  let stdout := λ (result : string) (_ : unit), logger.messageNoCR result in
  let stderr := λ (result : string) (_ : unit), logger.messageNoCR result in
  let closing := λ (retCode : Z) (signal : string) (_ : unit),
    (if negb (retCode =? 0)%Z
     then logger.message "The current target failed to build."
     else logger.message "The current target built successfully.");;
    mret (inr tt) in
  r ← util.spawnChildProcess h (getConfigurationMakeCommand (configuration h)) makeArgs
        (JS.orElse (rootPath h) "") stdout stderr closing tt;
  match r with
  | inl error => logger.message error
  | inr _ => skip
  end.

Definition parseBuild : M bool :=
  let buildLog := getConfigurationBuildLog (configuration h) in
  buildLogContent ←
    match buildLog with
    | Some file => if JS.truthy file then util.readFile file else mret None
    | None => mret None
    end;
  if JS.truthyOpt buildLogContent then
    logger.message ("Parsing the provided build log " +:+ JS.dquote +:+ JS.toString buildLog
                    +:+ JS.dquote +:+ " for IntelliSense integration with CppTools...");;
    ext.updateProvider (JS.toString buildLogContent);;
    mret true
  else mret false.

Definition parseBuildOrDryRun : M unit :=
  parsed ← parseBuild;
  if (parsed : bool) then skip
  else
    let makeArgs : list string := [] in
    (* Prepend the target to the arguments given in the configurations json. *)
    let currentTarget := getCurrentTarget (configuration h) in
    let makeArgs :=
      match currentTarget with
      | Some target => if JS.truthy target then makeArgs ++ [target] else makeArgs
      | None => makeArgs
      end in
    (* Include all the make arguments defined in makefile.configurations.makeArgs *)
    let makeArgs := makeArgs ++ getConfigurationMakeArgs (configuration h) in
    (* Append --dry-run switches *)
    let makeArgs := makeArgs ++ ["--dry-run"] in
    let dryRunSwitches := getDryRunSwitches (configuration h) in
    let makeArgs :=
      match dryRunSwitches with
      | Some switches => makeArgs ++ switches
      | None => makeArgs
      end in
    logger.message ("Generating the make dry-run output for parsing IntelliSense information. Command: "
                    +:+ getConfigurationMakeCommand (configuration h)
                    +:+ " " +:+ JS.join " " makeArgs);;
    let stdout := λ (result : string) (c : Captured),
      mret {| stdoutStr := stdoutStr c +:+ result; stderrStr := stderrStr c |} in
    let stderr := λ (result : string) (c : Captured),
      mret {| stdoutStr := stdoutStr c; stderrStr := stderrStr c +:+ result |} in
    let closing := λ (retCode : Z) (signal : string) (c : Captured),
      let dryrunCache := getDryrunCache (configuration h) in
      (if negb (retCode =? 0)%Z then
         logger.message "The make dry-run command failed. IntelliSense may work only partially or not at all.";;
         logger.message (stderrStr c);;
         util.reportDryRunError
       else skip);;
      written ← fs.writeFileSync h dryrunCache (stdoutStr c);
      match written with
      | inl error => mret (inl error)
      | inr _ =>
          ext.updateProvider (stdoutStr c);;
          mret (inr c)
      end in
    r ← util.spawnChildProcess h (getConfigurationMakeCommand (configuration h)) makeArgs
          (JS.orElse (rootPath h) "") stdout stderr closing
          {| stdoutStr := ""; stderrStr := "" |};
    match r with
    | inl error => logger.message error
    | inr _ => skip
    end.

Definition runPreconfigureScript : M unit :=
  let script := getPreconfigureScript (configuration h) in
  let spawnScript (script : string) : M unit :=
    let '(runCommand, scriptArgs) :=
      if String.eqb (platform h) "win32"
      then ("cmd", ["/c"; script])
      else ("/bin/bash", ["-c"; JS.dquote +:+ "source " +:+ script +:+ JS.dquote]) in
    let stdout := λ (result : string) (c : Captured),
      mret {| stdoutStr := stdoutStr c +:+ result; stderrStr := stderrStr c |} in
    let stderr := λ (result : string) (c : Captured),
      mret {| stdoutStr := stdoutStr c; stderrStr := stderrStr c +:+ result |} in
    let closing := λ (retCode : Z) (signal : string) (c : Captured),
      (if (retCode =? 0)%Z then
         logger.message "The preconfigure script run successfully."
       else
         logger.message "The preconfigure script failed. This project may not configure successfully.";;
         logger.message (stderrStr c));;
      mret (inr c) in
    r ← util.spawnChildProcess h runCommand scriptArgs (JS.orElse (rootPath h) "")
          stdout stderr closing {| stdoutStr := ""; stderrStr := "" |};
    match r with
    | inl error => logger.message error
    | inr _ => skip
    end in
  let notFound : M unit :=
    vscode.showErrorMessage "Could not find pre-configure script.";;
    logger.message "Make sure a pre-configuration script path is defined with makefile.preconfigureScript and that it exists on disk." in
  match script with
  | Some file =>
      if JS.truthy file then
        found ← util.checkFileExistsSync file;
        if (found : bool) then spawnScript file else notFound
      else notFound
  | None => notFound
  end.

End Make.

(** ** The [Launcher] class: debug and run in terminal *)

(** The three variables [debugCurrentTarget] computes for the debug
    configuration: the debugger type [dbg], [miMode] and [miDebuggerPath]. *)
Record DebuggerChoice := {
  dbg : string;
  miMode : option string;
  miDebuggerPath : option string
}.

Section Launcher.

Context (h : Host).

(** the full path of the target binary currently set for launch *)
Definition launchTargetPath : string :=
  match getCurrentLaunchConfiguration (configuration h) with
  | Some launchConfiguration => binary launchConfiguration
  | None => ""
  end.

(** the full path from where the target binary is to be launched *)
Definition launchCurrentDir : string :=
  match getCurrentLaunchConfiguration (configuration h) with
  | Some launchConfiguration => cwd launchConfiguration
  | None => JS.orElse (rootPath h) ""
  end.

(** the arguments sent to the target binary, returned as array of string *)
Definition launchTargetArgs : list string :=
  match getCurrentLaunchConfiguration (configuration h) with
  | Some launchConfiguration => args launchConfiguration
  | None => []
  end.

(** the arguments sent to the target binary, returned as one simple string *)
Definition launchTargetArgsConcat : string := JS.join " " launchTargetArgs.

(** Lines 92-104 of [debugCurrentTarget]: the initial debugger guess from the
    compiler path.  [parsedObjPath?.name.startsWith(..)] is [undefined] when
    there is no parsed path. *)
Definition initialGuess (compilerPath : option string) : DebuggerChoice :=
  let parsedObjPath : option ParsedPath :=
    match compilerPath with
    | Some p => if JS.truthy p then Some (path_parse h p) else None
    | None => None
    end in
  let isClangCompiler : option bool :=
    (λ o, JS.startsWith (name o) "clang") <$> parsedObjPath in
  let isMsvcCompiler : option bool :=
    if negb (JS.truthyBool isClangCompiler)
    then (λ o, JS.startsWith (name o) "cl") <$> parsedObjPath
    else Some false in
  let dbg : string := if JS.truthyBool isMsvcCompiler then "cppvsdbg" else "cppdbg" in
  let miDebuggerPath : option string :=
    if negb (JS.truthyBool isMsvcCompiler) then dir <$> parsedObjPath else None in
  (* Initial debugger guess *)
  let miMode : option string :=
    if JS.truthyBool ((λ o, JS.startsWith (name o) "clang") <$> parsedObjPath) then Some "lldb"
    else if negb (JS.truthyBool ((λ o, JS.startsWith (name o) "cl") <$> parsedObjPath)) then Some "gdb"
    else None in
  {| dbg := dbg; miMode := miMode; miDebuggerPath := miDebuggerPath |}.

(** Lines 92-128 of [debugCurrentTarget]: the guess, the probe of the guessed
    debugger and the final debugger path. *)
Definition selectDebugger (compilerPath : option string) : M DebuggerChoice :=
  let guess := initialGuess compilerPath in
  (* If the first chosen debugger is not installed, try the other one. *)
  miMode ←
    match miDebuggerPath guess, miMode guess with
    | Some directory, Some mode =>
        if JS.truthy directory && JS.truthy mode then
          let debuggerPath := path_join h directory mode in
          let debuggerPath :=
            if String.eqb (platform h) "win32" then debuggerPath +:+ ".exe" else debuggerPath in
          found ← util.checkFileExistsSync debuggerPath;
          if (found : bool) then mret (Some mode)
          else mret (Some (if String.eqb mode "gdb" then "lldb" else "gdb"))
        else mret (Some mode)
    | _, mode => mret mode
    end;
  (* Exception for MAC-lldb, intentionally don't provide the debugger path,
     to allow the debugger extension to find it automatically *)
  let miDebuggerPath : option string :=
    if bool_decide (miMode = Some "lldb") && String.eqb (platform h) "darwin" then None
    else
      match miDebuggerPath guess, miMode with
      | Some directory, Some mode =>
          if JS.truthy directory && JS.truthy mode then
            let joined := path_join h directory mode in
            Some (if String.eqb (platform h) "win32" then joined +:+ ".exe" else joined)
          else Some directory
      | unchanged, _ => unchanged
      end in
  mret {| dbg := dbg guess; miMode := miMode; miDebuggerPath := miDebuggerPath |}.

Definition debugCurrentTarget : M (option DebugSession) :=
  match getCurrentLaunchConfiguration (configuration h) with
  | None =>
      vscode.showErrorMessage "Currently there is no launch configuration set.";;
      logger.message ("Cannot start debugging because there is no launch configuration set. "
                      +:+ "Define one in the settings file or use the Makefile.setLaunchConfigurationCommand");;
      mret None
  | Some _ =>
      let args := launchTargetArgs in
      compilerPath ←
        match extension h with
        | Some makefileTools =>
            emit GetCompilerFullPath;;
            mret (compilerFullPath makefileTools)
        | None => mret None
        end;
      choice ← selectDebugger compilerPath;
      let debugConfig :=
        {| dc_type := dbg choice;
           dc_name := "Debug My Program";
           dc_request := "launch";
           dc_cwd := "${command:Makefile.launchCurrentDir}";
           dc_args := args;
           dc_program := "${command:Makefile.launchTargetPath}";
           dc_miMode := miMode choice;
           dc_miDebuggerPath := miDebuggerPath choice |} in
      match workspaceFolders h with
      | Some folders => vscode.startDebugging h (head folders) debugConfig
      | None => vscode.startDebugging h None debugConfig
      end;;
      getActiveDebugSession
  end.

(** Watch for the user closing our terminal *)
Definition onTerminalClose (term : Terminal) : M unit :=
  current ← getLaunchTerminal;
  if bool_decide (current = Some term) then setLaunchTerminal None else skip.

Definition runCurrentTarget : M Terminal :=
  let terminalOptions :=
    {| to_name := "Make/Launch"; to_shellPath := None; to_cwd := None |} in
  (* Use cmd.exe on Windows *)
  let terminalOptions :=
    if String.eqb (platform h) "win32"
    then {| to_name := to_name terminalOptions;
            to_shellPath := Some "C:\Windows\System32\cmd.exe";
            to_cwd := Some launchCurrentDir |}
    else terminalOptions in
  current ← getLaunchTerminal;
  terminal ←
    match current with
    | Some terminal => mret terminal
    | None =>
        terminal ← vscode.createTerminal terminalOptions;
        setLaunchTerminal (Some terminal);;
        mret terminal
    end;
  match getCurrentLaunchConfiguration (configuration h) with
  | None =>
      vscode.showErrorMessage "Currently there is no launch configuration set.";;
      logger.message ("Cannot start debugging because there is no launch configuration set. "
                      +:+ "Define one in the settings file or use the Makefile.setLaunchConfigurationCommand");;
      mret terminal
  | Some _ =>
      (* Add a pair of quotes just in case there is a space in the binary path *)
      let terminalCommand := JS.dquote +:+ launchTargetPath +:+ JS.dquote +:+ " " in
      let terminalCommand := terminalCommand +:+ JS.join " " launchTargetArgs in
      vscode.sendText terminal terminalCommand;;
      vscode.show terminal;;
      mret terminal
  end.

End Launcher.

(** ** Reading traces *)

(** The events a computation adds to the trace when run from [w]. *)
Definition events {A : Type} (m : M A) (w : World) : list Event :=
  drop (length (trace w)) (trace (m w).2).

(** The world [w] after the events [evs] were recorded. *)
Definition record (evs : list Event) (w : World) : World :=
  {| trace := trace w ++ evs; files := files w;
     launchTerminal := launchTerminal w; terminals := terminals w;
     activeDebugSession := activeDebugSession w |}.

(** The world [w] after [content] was written to the file [path]. *)
Definition written (path content : string) (w : World) : World :=
  {| trace := trace w; files := <[path := content]> (files w);
     launchTerminal := launchTerminal w; terminals := terminals w;
     activeDebugSession := activeDebugSession w |}.

(** The world [w] once [session] is the active debug session. *)
Definition debugging (session : option DebugSession) (w : World) : World :=
  {| trace := trace w; files := files w;
     launchTerminal := launchTerminal w; terminals := terminals w;
     activeDebugSession := session |}.

(** The debug configuration [debugCurrentTarget] builds around a debugger
    choice. *)
Definition debugConfigOf (h : Host) (choice : DebuggerChoice) : DebugConfiguration :=
  {| dc_type := dbg choice;
     dc_name := "Debug My Program";
     dc_request := "launch";
     dc_cwd := "${command:Makefile.launchCurrentDir}";
     dc_args := launchTargetArgs h;
     dc_program := "${command:Makefile.launchTargetPath}";
     dc_miMode := miMode choice;
     dc_miDebuggerPath := miDebuggerPath choice |}.

(** The call [debugCurrentTarget] makes for the compiler path: none when there
    is no extension object. *)
Definition fetched (h : Host) : list Event :=
  match extension h with
  | Some _ => [GetCompilerFullPath]
  | None => []
  end.

(** The folder the debug session is started in: the first workspace folder. *)
Definition startFolder (h : Host) : option WorkspaceFolder :=
  match workspaceFolders h with
  | Some folders => head folders
  | None => None
  end.

(** The options [runCurrentTarget] creates its terminal with. *)
Definition terminalOptionsOf (h : Host) : TerminalOptions :=
  if String.eqb (platform h) "win32"
  then {| to_name := "Make/Launch";
          to_shellPath := Some "C:\Windows\System32\cmd.exe";
          to_cwd := Some (launchCurrentDir h) |}
  else {| to_name := "Make/Launch"; to_shellPath := None; to_cwd := None |}.

(** The two reports of a missing launch configuration. *)
Definition noLaunchError : Event :=
  ShowErrorMessage "Currently there is no launch configuration set.".

Definition noLaunchEntry : Event :=
  LogMessage ("Cannot start debugging because there is no launch configuration set. "
              +:+ "Define one in the settings file or use the Makefile.setLaunchConfigurationCommand").

(** The events of choosing and starting a debugger. *)
Definition isSelection (e : Event) : bool :=
  match e with
  | GetCompilerFullPath | CheckFileExistsSync _ | StartDebugging _ _ => true
  | _ => false
  end.

Definition isSpawn (e : Event) : bool :=
  match e with
  | SpawnChildProcess _ _ _ => true
  | _ => false
  end.

Definition isDryRunError (e : Event) : bool :=
  match e with
  | ReportDryRunError => true
  | _ => false
  end.

Definition isProbe (e : Event) : bool :=
  match e with
  | CheckFileExistsSync _ => true
  | _ => false
  end.

(** How many events of a kind a trace holds. *)
Definition count (kind : Event → bool) (t : list Event) : nat :=
  length (filter (λ e, kind e = true) t).

(** The text a process wrote to one of its streams, fragments in order. *)
Fixpoint stdoutOf (output : list Fragment) : string :=
  match output with
  | [] => ""
  | Stdout text :: rest => text +:+ stdoutOf rest
  | Stderr _ :: rest => stdoutOf rest
  end.

Fixpoint stderrOf (output : list Fragment) : string :=
  match output with
  | [] => ""
  | Stdout _ :: rest => stderrOf rest
  | Stderr text :: rest => text +:+ stderrOf rest
  end.

(** Every terminal handle the launcher retains was returned by an earlier
    [createTerminal]. *)
Definition retainedTerminalIssued (w : World) : Prop :=
  ∀ t, launchTerminal w = Some t → t < terminals w.

(** ** The specification's words *)

Module Spec.

(** Section 4.1, [assembleArgs]: the target first when present, the
    configured arguments verbatim, and for a dry run the [--dry-run] flag
    followed by the extra flags. *)
Definition assembleArgs (target : option string) (configuredArgs : list string)
    (dryRun : bool) (dryRunExtraFlags : option (list string)) : list string :=
  match target with Some t => [t] | None => [] end
  ++ configuredArgs
  ++ (if dryRun then "--dry-run" :: default [] dryRunExtraFlags else []).

(** A target counts only when it is a non-empty string. *)
Definition nonEmpty (target : option string) : option string :=
  match target with
  | Some t => if String.eqb t "" then None else Some t
  | None => None
  end.

(** The other of the two debugger modes. *)
Definition swap (mode : string) : string :=
  if String.eqb mode "gdb" then "lldb" else "gdb".

(** Section 4.4, step 4: the candidate debugger executable, in the directory of
    the compiler, with the executable suffix on Windows only. *)
Definition candidate (h : Host) (directory mode : string) : string :=
  path_join h directory mode +:+ (if String.eqb (platform h) "win32" then ".exe" else "").

End Spec.

(** ** Concrete environments *)

Module Scenario.

Definition helloLaunch : LaunchConfiguration :=
  {| binary := "/ws/bin/hello"; cwd := "/ws"; args := ["--verbose"; "input.txt"] |}.

Definition config (target : option string) (buildLog script : option string)
    (launch : option LaunchConfiguration) : Configuration :=
  {| getCurrentTarget := target;
     getConfigurationMakeArgs := ["-j4"; "-C"; "src"];
     getConfigurationMakeCommand := "make";
     getDryRunSwitches := Some ["--always-make"; "--keep-going"];
     getConfigurationBuildLog := buildLog;
     getDryrunCache := "/ws/.vscode/dryrun.log";
     getPreconfigureScript := script;
     getCurrentLaunchConfiguration := launch |}.

(** The dry run of the scenarios prints two commands, complains and fails with
    code 2; every other command cannot be spawned. *)
Definition makeFails (process : string) (args : list string) (cwd : string) : ProcessRun :=
  if String.eqb process "make" then
    Exit [Stdout "cc -c a.c; "; Stderr "make: *** No rule to make target. "; Stdout "cc -c b.c; "]
         2 ""
  else SpawnError "spawn ENOENT".

Definition host (os : string) (compiler : option string) (c : Configuration) : Host :=
  {| platform := os;
     path_parse := Posix.parse;
     path_join := Posix.join;
     rootPath := Some "/ws";
     workspaceFolders := Some ["/ws"];
     extension := Some {| compilerFullPath := compiler |};
     processes := makeFails;
     writeErrors := λ _, None;
     rejectsCallbackErrors := false;
     debugSessions := λ _ _, Some 7;
     configuration := c |}.

Definition world (disk : gmap string string) (retained : option Terminal) (created : nat)
  : World :=
  {| trace := []; files := disk; launchTerminal := retained; terminals := created;
     activeDebugSession := None |}.

(** gcc in [/usr/bin], where only lldb is installed. *)
Definition lldbOnly : gmap string string := {[ "/usr/bin/lldb" := "lldb" ]}.

Definition linuxGcc : Host :=
  host "linux" (Some "/usr/bin/gcc") (config (Some "all") None None (Some helloLaunch)).

Definition macGcc : Host :=
  host "darwin" (Some "/usr/bin/gcc") (config (Some "all") None None (Some helloLaunch)).

(** The compiler is found through [PATH]: its path has no directory. *)
Definition bareGcc : Host :=
  host "linux" (Some "gcc") (config (Some "all") None None (Some helloLaunch)).

(** No target is selected: the current target is the empty string. *)
Definition noTarget : Host :=
  host "linux" (Some "/usr/bin/gcc") (config (Some "") None None (Some helloLaunch)).

Definition withBuildLog : Host :=
  host "linux" (Some "/usr/bin/gcc")
       (config (Some "all") (Some "/ws/build.log") None (Some helloLaunch)).

Definition buildLogOnDisk : gmap string string := {[ "/ws/build.log" := "gcc -c main.c" ]}.

Definition noLaunch : Host :=
  host "linux" (Some "/usr/bin/gcc") (config (Some "all") None None None).

Definition macClang : Host :=
  host "darwin" (Some "/usr/bin/clang") (config (Some "all") None None (Some helloLaunch)).

Definition linuxClang : Host :=
  host "linux" (Some "/usr/bin/clang-14") (config (Some "all") None None (Some helloLaunch)).

(** The MSVC compiler driven from a POSIX host. *)
Definition wineCl : Host :=
  host "linux" (Some "/opt/msvc/bin/x64/cl.exe")
       (config (Some "all") None None (Some helloLaunch)).

(** A pre-configure script is configured but is not on disk. *)
Definition missingScript : Host :=
  host "linux" (Some "/usr/bin/gcc")
       (config (Some "all") None (Some "/ws/configure.sh") (Some helloLaunch)).

End Scenario.

(** ** Sessions of the launcher *)

(** What reaches the launcher over time: the two commands and the
    notifications that a terminal was closed. *)
Inductive LauncherOp :=
| RunCurrentTarget
| DebugCurrentTarget
| TerminalClosed (term : Terminal).

Definition isClose (op : LauncherOp) : bool :=
  match op with
  | TerminalClosed _ => true
  | _ => false
  end.

Definition perform (h : Host) (op : LauncherOp) : M unit :=
  match op with
  | RunCurrentTarget => _ ← runCurrentTarget h; skip
  | DebugCurrentTarget => _ ← debugCurrentTarget h; skip
  | TerminalClosed term => onTerminalClose term
  end.

Fixpoint session (h : Host) (ops : list LauncherOp) : M unit :=
  match ops with
  | [] => skip
  | op :: rest => perform h op;; session h rest
  end.

(** ** More ways to read a trace *)

Definition isPopup (e : Event) : bool :=
  match e with
  | ShowErrorMessage _ => true
  | _ => false
  end.

Definition isUpdate (e : Event) : bool :=
  match e with
  | UpdateProvider _ => true
  | _ => false
  end.

Definition isStart (e : Event) : bool :=
  match e with
  | StartDebugging _ _ => true
  | _ => false
  end.

Definition isCreate (e : Event) : bool :=
  match e with
  | CreateTerminal _ _ => true
  | _ => false
  end.

Definition isWrite (e : Event) : bool :=
  match e with
  | WriteFileSync _ _ => true
  | _ => false
  end.

Definition isLog (e : Event) : bool :=
  match e with
  | LogMessage _ | LogMessageNoCR _ => true
  | _ => false
  end.

(** The log entry [buildCurrentTarget] makes of one output fragment. *)
Definition fragmentLog (fragment : Fragment) : Event :=
  match fragment with
  | Stdout text | Stderr text => LogMessageNoCR text
  end.

(** The world [w] once a new terminal was created and retained. *)
Definition created (w : World) : World :=
  {| trace := trace w; files := files w;
     launchTerminal := Some (terminals w); terminals := S (terminals w);
     activeDebugSession := activeDebugSession w |}.

(** The command line [runCurrentTarget] types into the terminal. *)
Definition terminalCommandOf (h : Host) : string :=
  JS.dquote +:+ launchTargetPath h +:+ JS.dquote +:+ " " +:+ JS.join " " (launchTargetArgs h).

(** What [runCurrentTarget] does with its terminal [t]. *)
Definition runReport (h : Host) (t : Terminal) : list Event :=
  match getCurrentLaunchConfiguration (configuration h) with
  | Some _ => [SendText t (terminalCommandOf h); ShowTerminal t]
  | None => [noLaunchError; noLaunchEntry]
  end.

(** The command and arguments [runPreconfigureScript] runs a script with. *)
Definition scriptCommand (h : Host) (script : string) : string * list string :=
  if String.eqb (platform h) "win32"
  then ("cmd", ["/c"; script])
  else ("/bin/bash", ["-c"; JS.dquote +:+ "source " +:+ script +:+ JS.dquote]).

Module Cases.

(** The dry-run cache doubles as the build log. *)
Definition cacheAsLog : Host :=
  Scenario.host "linux" (Some "/usr/bin/gcc")
    (Scenario.config (Some "all") (Some "/ws/.vscode/dryrun.log") None
       (Some Scenario.helloLaunch)).

(** No compiler is known. *)
Definition macNoCompiler : Host :=
  Scenario.host "darwin" None
    (Scenario.config (Some "all") None None (Some Scenario.helloLaunch)).

Definition scriptOnDisk : gmap string string := {[ "/ws/configure.sh" := "export CC=gcc" ]}.

Definition gdbOnly : gmap string string := {[ "/usr/bin/gdb" := "gdb" ]}.


(** There is no extension object. *)
Definition noExtension : Host :=
  {| platform := "linux";
     path_parse := Posix.parse;
     path_join := Posix.join;
     rootPath := Some "/ws";
     workspaceFolders := Some ["/ws"];
     extension := None;
     processes := Scenario.makeFails;
     writeErrors := λ _, None;
     rejectsCallbackErrors := false;
     debugSessions := λ _ _, Some 7;
     configuration := Scenario.config (Some "all") None None (Some Scenario.helloLaunch) |}.

(** The two arguments of [Scenario.helloLaunch] given as one. *)
Definition oneArgument : Host :=
  Scenario.host "linux" (Some "/usr/bin/gcc")
    (Scenario.config (Some "all") None None
       (Some {| binary := "/ws/bin/hello"; cwd := "/ws"; args := ["--verbose input.txt"] |})).

(** The make command is not installed: spawning it fails. *)
Definition noMake : Host :=
  Scenario.host "linux" (Some "/usr/bin/gcc")
    {| getCurrentTarget := Some "all";
       getConfigurationMakeArgs := ["-j4"];
       getConfigurationMakeCommand := "gmake";
       getDryRunSwitches := None;
       getConfigurationBuildLog := Some "/ws/build.log";
       getDryrunCache := "/ws/.vscode/dryrun.log";
       getPreconfigureScript := Some "/ws/configure.sh";
       getCurrentLaunchConfiguration := None |}.

End Cases.

(** * Properties *)

(** ** Traces and strings *)

Lemma record_nil (w : World) : record [] w = w.
Proof. destruct w. unfold record. cbn. by rewrite app_nil_r. Qed.

Lemma record_record (a b : list Event) (w : World) :
  record b (record a w) = record (a ++ b) w.
Proof. unfold record. cbn. by rewrite app_assoc. Qed.

Lemma events_of_trace {A : Type} (m : M A) (w : World) (evs : list Event) :
  trace (m w).2 = trace w ++ evs → events m w = evs.
Proof. intros E. unfold events. rewrite E. apply drop_app_length. Qed.

Lemma events_record {A : Type} (m : M A) (w : World) (a : A) (evs : list Event) :
  m w = (a, record evs w) → events m w = evs.
Proof. intros E. apply events_of_trace. by rewrite E. Qed.

Lemma count_app (kind : Event → bool) (a b : list Event) :
  count kind (a ++ b) = count kind a + count kind b.
Proof. unfold count. by rewrite filter_app, length_app. Qed.

Lemma append_assoc (a b c : string) : (a +:+ b) +:+ c = a +:+ (b +:+ c).
Proof.
  induction a as [|x a IH]; [done|].
  change (String x ((a +:+ b) +:+ c) = String x (a +:+ (b +:+ c))). by rewrite IH.
Qed.

Lemma append_empty_r (s : string) : s +:+ "" = s.
Proof.
  induction s as [|x s IH]; [done|].
  change (String x (s +:+ "") = String x s). by rewrite IH.
Qed.

Lemma truthy_true (s : string) : JS.truthy s = true ↔ s ≠ "".
Proof.
  unfold JS.truthy. destruct (String.eqb_spec s ""); cbn; split; intros; congruence.
Qed.

Lemma orElse_empty (x : option string) : JS.orElse x "" = default "" x.
Proof.
  destruct x as [s|]; [|done]. unfold JS.orElse, JS.truthy. cbn.
  by destruct (String.eqb_spec s "").
Qed.

(** [path.parse] on a parent reference: directly under the root Node takes the
    second dot for an extension, elsewhere the base has none. *)
Example parse_parent_reference :
  (name (Posix.parse "/.."), ext (Posix.parse "/..")) = (".", ".") ∧
  (name (Posix.parse "/../"), ext (Posix.parse "/../")) = (".", ".") ∧
  (name (Posix.parse "/usr/.."), ext (Posix.parse "/usr/..")) = ("..", "") ∧
  (name (Posix.parse ".."), ext (Posix.parse "..")) = ("..", "") ∧
  (name (Posix.parse "/usr/bin/clang++"), ext (Posix.parse "/usr/bin/gcc-12.2")) = ("clang++", ".2").
Proof. by vm_compute. Qed.

(** The output callbacks of [parseBuildOrDryRun] and [runPreconfigureScript]
    accumulate the two streams and touch nothing else. *)
Lemma capture_output (output : list Fragment) (c : Captured) (w : World) :
  foldM (λ (s : Captured) (fragment : Fragment),
           match fragment with
           | Stdout text =>
               mret {| stdoutStr := stdoutStr s +:+ text; stderrStr := stderrStr s |}
           | Stderr text =>
               mret {| stdoutStr := stdoutStr s; stderrStr := stderrStr s +:+ text |}
           end) c output w
  = ({| stdoutStr := stdoutStr c +:+ stdoutOf output;
        stderrStr := stderrStr c +:+ stderrOf output |}, w).
Proof.
  revert c. induction output as [|[text|text] rest IH]; intros c; cbn.
  - destruct c as [out err]. cbn.
    by rewrite !append_empty_r.
  - unfold mbind, M_bind, mret, M_ret. cbn. rewrite IH. cbn. by rewrite append_assoc.
  - unfold mbind, M_bind, mret, M_ret. cbn. rewrite IH. cbn. by rewrite append_assoc.
Qed.

(** ** Accessors of the launcher *)

(** C10: with no launch configuration the accessors return fixed defaults (the
    empty string, the workspace root path or the empty string, the empty
    array); [launchTargetArgsConcat] is always [launchTargetArgs] joined with
    single spaces. *)
Theorem launch_accessors_defaults (h : Host) :
  (getCurrentLaunchConfiguration (configuration h) = None →
     launchTargetPath h = "" ∧
     launchCurrentDir h = default "" (rootPath h) ∧
     launchTargetArgs h = []) ∧
  launchTargetArgsConcat h = String.concat " " (launchTargetArgs h).
Proof.
  split; [|reflexivity].
  intros E. unfold launchTargetPath, launchCurrentDir, launchTargetArgs. rewrite E.
  by rewrite orElse_empty.
Qed.

Lemma launch_accessors_defaults_witness :
  launchTargetPath Scenario.noLaunch = "" ∧
  launchCurrentDir Scenario.noLaunch = "/ws" ∧
  launchTargetArgs Scenario.noLaunch = [].
Proof. apply (proj1 (launch_accessors_defaults Scenario.noLaunch)). reflexivity. Defined.

(** With a launch configuration the accessors read its fields. *)
Lemma launch_accessors_configured (h : Host) (c : LaunchConfiguration) :
  getCurrentLaunchConfiguration (configuration h) = Some c →
  launchTargetPath h = binary c ∧ launchCurrentDir h = cwd c ∧ launchTargetArgs h = args c.
Proof.
  intros E. unfold launchTargetPath, launchCurrentDir, launchTargetArgs. by rewrite E.
Qed.

(** ** [make.ts]: the make command line *)

Lemma target_prefix (target : option string) (rest : list string) :
  match target with
  | Some t => if JS.truthy t then [] ++ [t] else []
  | None => []
  end ++ rest
  = Spec.assembleArgs (Spec.nonEmpty target) rest false None.
Proof.
  unfold Spec.assembleArgs, Spec.nonEmpty, JS.truthy.
  destruct target as [t|]; cbn; [|by rewrite app_nil_r].
  destruct (String.eqb t ""); cbn; by rewrite app_nil_r.
Qed.

Lemma assembleArgs_dry_run (target : option string) (configured : list string)
    (switches : option (list string)) :
  Spec.assembleArgs target configured true switches
  = match switches with
    | Some extra => (Spec.assembleArgs target configured false None ++ ["--dry-run"]) ++ extra
    | None => Spec.assembleArgs target configured false None ++ ["--dry-run"]
    end.
Proof.
  unfold Spec.assembleArgs. destruct switches as [extra|]; cbn;
    rewrite ?app_nil_r, <- ?app_assoc; cbn; by rewrite ?app_nil_r.
Qed.

Lemma prepareBuildCurrentTarget_run (h : Host) (w : World) :
  let makeArgs :=
    Spec.assembleArgs (Spec.nonEmpty (getCurrentTarget (configuration h)))
                      (getConfigurationMakeArgs (configuration h)) false
                      (getDryRunSwitches (configuration h)) in
  prepareBuildCurrentTarget h w
  = (makeArgs,
     record [LogMessage ("Building the current target. Command: "
                         +:+ getConfigurationMakeCommand (configuration h)
                         +:+ " " +:+ JS.join " " makeArgs)] w).
Proof.
  unfold prepareBuildCurrentTarget, logger.message. run.
  rewrite target_prefix. reflexivity.
Qed.

(** What [parseBuild] does, case by case. *)
Lemma parseBuild_run (h : Host) (w : World) :
  parseBuild h w
  = match getConfigurationBuildLog (configuration h) with
    | Some file =>
        if JS.truthy file then
          match files w !! file with
          | Some content =>
              if JS.truthy content then
                (true, record [ReadFile file;
                               LogMessage ("Parsing the provided build log " +:+ JS.dquote +:+ file
                                           +:+ JS.dquote
                                           +:+ " for IntelliSense integration with CppTools...");
                               UpdateProvider content] w)
              else (false, record [ReadFile file] w)
          | None => (false, record [ReadFile file] w)
          end
        else (false, record [] w)
    | None => (false, record [] w)
    end.
Proof.
  unfold parseBuild, util.readFile, logger.message, ext.updateProvider.
  destruct (getConfigurationBuildLog (configuration h)) as [file|]; run;
    [|by rewrite record_nil].
  destruct (JS.truthy file); run; [|by rewrite record_nil].
  destruct (files w !! file) as [content|]; run; [|done].
  destruct (JS.truthy content); run; [|done].
  unfold record. cbn. by rewrite <- !app_assoc.
Qed.

Lemma parseBuild_false (h : Host) (w : World) :
  (parseBuild h w).1 = false →
  ∃ reads, parseBuild h w = (false, record reads w) ∧
           (reads = [] ∨ ∃ file, reads = [ReadFile file]).
Proof.
  rewrite parseBuild_run.
  destruct (getConfigurationBuildLog (configuration h)) as [file|]; [|by eauto].
  destruct (JS.truthy file); [|by eauto].
  destruct (files w !! file) as [content|]; [|by eauto].
  destruct (JS.truthy content); [done | by eauto].
Qed.

(** The whole dry run, once [parseBuild] has declined. *)
Lemma parseBuildOrDryRun_dry_run (h : Host) (w : World) (reads : list Event) :
  parseBuild h w = (false, record reads w) →
  let makeArgs :=
    Spec.assembleArgs (Spec.nonEmpty (getCurrentTarget (configuration h)))
                      (getConfigurationMakeArgs (configuration h)) true
                      (getDryRunSwitches (configuration h)) in
  let command := getConfigurationMakeCommand (configuration h) in
  let start :=
    reads ++
    [LogMessage ("Generating the make dry-run output for parsing IntelliSense information. Command: "
                 +:+ command +:+ " " +:+ JS.join " " makeArgs);
     SpawnChildProcess command makeArgs (JS.orElse (rootPath h) "")] in
  parseBuildOrDryRun h w
  = match processes h command makeArgs (JS.orElse (rootPath h) "") with
    | SpawnError error => (tt, record (start ++ [LogMessage error]) w)
    | Exit output retCode signal =>
        let closing :=
          start ++
          (if negb (retCode =? 0)%Z then
             [LogMessage "The make dry-run command failed. IntelliSense may work only partially or not at all.";
              LogMessage (stderrOf output);
              ReportDryRunError]
           else []) ++
          [WriteFileSync (getDryrunCache (configuration h)) (stdoutOf output)] in
        match writeFailure h (getDryrunCache (configuration h)) with
        | None =>
            (tt, record [UpdateProvider (stdoutOf output)]
                   (written (getDryrunCache (configuration h)) (stdoutOf output)
                      (record closing w)))
        | Some error =>
            (tt, record (closing ++ if rejectsCallbackErrors h then [LogMessage error] else [])
                   w)
        end
    end.
Proof.
  intros E makeArgs command start.
  unfold parseBuildOrDryRun. unfold mbind at 1. unfold M_bind at 1. rewrite E.
  assert (A : match getDryRunSwitches (configuration h) with
              | Some switches =>
                  ((match getCurrentTarget (configuration h) with
                    | Some target => if JS.truthy target then [] ++ [target] else []
                    | None => []
                    end ++ getConfigurationMakeArgs (configuration h)) ++ ["--dry-run"])
                  ++ switches
              | None =>
                  (match getCurrentTarget (configuration h) with
                   | Some target => if JS.truthy target then [] ++ [target] else []
                   | None => []
                   end ++ getConfigurationMakeArgs (configuration h)) ++ ["--dry-run"]
              end = makeArgs).
  { subst makeArgs. by rewrite assembleArgs_dry_run, <- target_prefix. }
  cbv zeta. rewrite A. clear A.
  unfold logger.message, util.spawnChildProcess, util.reportDryRunError,
    fs.writeFileSync, ext.updateProvider.
  fold command. run.
  destruct (processes h command makeArgs (JS.orElse (rootPath h) "")) as [error|output retCode signal].
  - run. unfold record. cbn. subst start. by rewrite <- !app_assoc.
  - run. rewrite capture_output. cbn.
    destruct (writeFailure h (getDryrunCache (configuration h))) as [failure|];
      [destruct (rejectsCallbackErrors h)|];
      destruct (retCode =? 0)%Z; cbn; unfold record, written; cbn; subst start;
      by rewrite <- ?app_assoc, ?app_nil_r.
Qed.

(** The empty string is a current target the code can receive, and it is not
    passed to make: the list of section 4.1 would start with it. *)
Lemma empty_target_not_prepended :
  let h := Scenario.noTarget in
  getCurrentTarget (configuration h) = Some "" ∧
  (prepareBuildCurrentTarget h (Scenario.world ∅ None 0)).1 = ["-j4"; "-C"; "src"] ∧
  Spec.assembleArgs (getCurrentTarget (configuration h))
                    (getConfigurationMakeArgs (configuration h)) false
                    (getDryRunSwitches (configuration h)) = [""; "-j4"; "-C"; "src"] ∧
  (prepareBuildCurrentTarget h (Scenario.world ∅ None 0)).1
  ≠ Spec.assembleArgs (getCurrentTarget (configuration h))
                      (getConfigurationMakeArgs (configuration h)) false
                      (getDryRunSwitches (configuration h)).
Proof. cbv zeta. repeat split; try reflexivity. vm_compute. discriminate. Qed.

(** C3, amended: the make argument list is the target (first, when it is set
    and not the empty string), then the configured make arguments in order,
    then, for the dry run only, [--dry-run] and the configured dry-run switches
    in order.  The list [prepareBuildCurrentTarget] returns is the one
    [buildCurrentTarget] spawns make with; the dry-run list is the one
    [parseBuildOrDryRun] spawns make with when no build log is parsed. *)
Theorem make_arguments_assembled (h : Host) (w : World) :
  let assembled :=
    Spec.assembleArgs (Spec.nonEmpty (getCurrentTarget (configuration h)))
                      (getConfigurationMakeArgs (configuration h)) in
  let command := getConfigurationMakeCommand (configuration h) in
  let switches := getDryRunSwitches (configuration h) in
  (prepareBuildCurrentTarget h w).1 = assembled false switches ∧
  (∃ line rest,
     events (buildCurrentTarget h) w
     = LogMessage line
       :: SpawnChildProcess command (assembled false switches) (JS.orElse (rootPath h) "")
       :: rest) ∧
  ((parseBuild h w).1 = false →
   ∃ line rest,
     events (parseBuildOrDryRun h) w
     = events (parseBuild h) w
       ++ LogMessage line
       :: SpawnChildProcess command (assembled true switches) (JS.orElse (rootPath h) "")
       :: rest).
Proof.
  intros assembled command switches. split; [|split].
  - by rewrite prepareBuildCurrentTarget_run.
  - assert (G : ∃ line rest,
               trace (buildCurrentTarget h w).2
               = trace w ++ LogMessage line
                 :: SpawnChildProcess command (assembled false switches)
                      (JS.orElse (rootPath h) "")
                 :: rest).
    { unfold buildCurrentTarget. unfold mbind at 1. unfold M_bind at 1.
      rewrite prepareBuildCurrentTarget_run. cbv zeta.
      unfold util.spawnChildProcess, logger.message, logger.messageNoCR.
      fold command. fold switches. fold assembled.
      set (line := (_ +:+ _)). exists line.
      assert (F : ∀ (l : list Fragment) (w0 : World),
                foldM (λ (s : ()) (fragment : Fragment),
                         match fragment with
                         | Stdout text => emit (LogMessageNoCR text)
                         | Stderr text => emit (LogMessageNoCR text)
                         end) () l w0
                = (tt, record (map (λ f, match f with
                                         | Stdout text | Stderr text => LogMessageNoCR text
                                         end) l) w0)).
      { induction l as [|[text|text] l IH]; intros w0; cbn.
        - by rewrite record_nil.
        - run. rewrite IH. unfold record. cbn. by rewrite <- app_assoc.
        - run. rewrite IH. unfold record. cbn. by rewrite <- app_assoc. }
      run.
      destruct (processes h command (assembled false switches) (JS.orElse (rootPath h) ""))
        as [error|output retCode signal].
      - eexists. run. rewrite <- !app_assoc. cbn. reflexivity.
      - destruct (retCode =? 0)%Z; eexists; run; rewrite F; cbn;
          rewrite <- !app_assoc; cbn; reflexivity. }
    destruct G as (line & rest & G). exists line, rest. by apply events_of_trace.
  - intros E. destruct (parseBuild_false h w E) as (reads & R & _).
    pose proof (parseBuildOrDryRun_dry_run h w reads R) as D. cbv zeta in D.
    fold command switches assembled in D.
    rewrite (events_record _ _ _ _ R).
    set (line := (_ +:+ _)) in D.
    destruct (processes h command (assembled true switches) (JS.orElse (rootPath h) ""))
      as [error|output retCode signal];
      [|destruct (writeFailure h (getDryrunCache (configuration h)))];
      exists line; eexists;
      apply events_of_trace; rewrite D; cbn; rewrite <- ?app_assoc; cbn; reflexivity.
Qed.

Lemma make_arguments_assembled_witness :
  ∃ line rest,
    events (parseBuildOrDryRun Scenario.linuxGcc) (Scenario.world ∅ None 0)
    = events (parseBuild Scenario.linuxGcc) (Scenario.world ∅ None 0)
      ++ LogMessage line
      :: SpawnChildProcess "make"
           ["all"; "-j4"; "-C"; "src"; "--dry-run"; "--always-make"; "--keep-going"] "/ws"
      :: rest.
Proof.
  apply (proj2 (proj2 (make_arguments_assembled Scenario.linuxGcc (Scenario.world ∅ None 0)))).
  reflexivity.
Defined.

(** ** [make.ts]: build log or dry run *)

(** C4: when the configured build-log file exists and is not empty,
    [parseBuildOrDryRun] hands its full contents to [ext.updateProvider] and
    stops: it spawns no process (and writes no file). *)
Theorem build_log_preempts_dry_run (h : Host) (w : World) (file content : string) :
  getConfigurationBuildLog (configuration h) = Some file →
  file ≠ "" →
  files w !! file = Some content →
  content ≠ "" →
  parseBuildOrDryRun h w
  = (tt, record [ReadFile file;
                 LogMessage ("Parsing the provided build log " +:+ JS.dquote +:+ file
                             +:+ JS.dquote
                             +:+ " for IntelliSense integration with CppTools...");
                 UpdateProvider content] w) ∧
  count isSpawn (events (parseBuildOrDryRun h) w) = 0.
Proof.
  intros L NF F NC.
  assert (R : parseBuildOrDryRun h w
              = (tt, record [ReadFile file;
                             LogMessage ("Parsing the provided build log " +:+ JS.dquote +:+ file
                                         +:+ JS.dquote
                                         +:+ " for IntelliSense integration with CppTools...");
                             UpdateProvider content] w)).
  { unfold parseBuildOrDryRun. unfold mbind at 1. unfold M_bind at 1.
    rewrite parseBuild_run, L, F.
    apply truthy_true in NF, NC. by rewrite NF, NC. }
  split; [exact R|]. by rewrite (events_record _ _ _ _ R).
Qed.

Lemma build_log_preempts_dry_run_witness :
  count isSpawn (events (parseBuildOrDryRun Scenario.withBuildLog)
                        (Scenario.world Scenario.buildLogOnDisk None 0)) = 0.
Proof.
  apply (build_log_preempts_dry_run Scenario.withBuildLog
           (Scenario.world Scenario.buildLogOnDisk None 0) "/ws/build.log" "gcc -c main.c").
  - reflexivity.
  - discriminate.
  - reflexivity.
  - discriminate.
Defined.




(** ** [make.ts]: the pre-configure script *)

(** C7: when no pre-configure script is configured, or the configured path does
    not exist on disk, [runPreconfigureScript] shows the error message, logs the
    explanation and returns; it spawns nothing. *)
Theorem preconfigure_script_missing (h : Host) (w : World) :
  (getPreconfigureScript (configuration h) = None ∨
   ∃ file, getPreconfigureScript (configuration h) = Some file ∧ files w !! file = None) →
  (∃ probes,
     runPreconfigureScript h w
     = (tt, record (probes ++
                    [ShowErrorMessage "Could not find pre-configure script.";
                     LogMessage "Make sure a pre-configuration script path is defined with makefile.preconfigureScript and that it exists on disk."])
                   w) ∧
     count isSpawn probes = 0) ∧
  count isSpawn (events (runPreconfigureScript h) w) = 0.
Proof.
  intros Missing.
  assert (R : ∃ probes,
            runPreconfigureScript h w
            = (tt, record (probes ++
                           [ShowErrorMessage "Could not find pre-configure script.";
                            LogMessage "Make sure a pre-configuration script path is defined with makefile.preconfigureScript and that it exists on disk."])
                          w) ∧
            count isSpawn probes = 0).
  { unfold runPreconfigureScript, vscode.showErrorMessage, logger.message,
      util.checkFileExistsSync.
    destruct Missing as [-> | (file & -> & Absent)].
    - exists []. split; [|done]. run. unfold record. cbn. by rewrite <- !app_assoc.
    - destruct (JS.truthy file).
      + exists [CheckFileExistsSync file]. split; [|done]. run. rewrite Absent.
        cbn. unfold record. cbn. by rewrite <- !app_assoc.
      + exists []. split; [|done]. run. unfold record. cbn. by rewrite <- !app_assoc. }
  split; [exact R|]. destruct R as (probes & R & N).
  rewrite (events_record _ _ _ _ R), count_app, N. reflexivity.
Qed.

Lemma preconfigure_script_missing_witness :
  count isSpawn (events (runPreconfigureScript Scenario.linuxGcc) (Scenario.world ∅ None 0)) = 0.
Proof.
  apply (preconfigure_script_missing Scenario.linuxGcc (Scenario.world ∅ None 0)).
  left. reflexivity.
Defined.

(** A configured script that is not on disk is probed once and reported. *)
Example configured_script_not_on_disk :
  events (runPreconfigureScript Scenario.missingScript) (Scenario.world ∅ None 0)
  = [CheckFileExistsSync "/ws/configure.sh";
     ShowErrorMessage "Could not find pre-configure script.";
     LogMessage "Make sure a pre-configuration script path is defined with makefile.preconfigureScript and that it exists on disk."].
Proof. vm_compute. reflexivity. Qed.

(** The script on disk is sourced through bash; the spawn fails here and the
    error is logged. *)
Example configured_script_on_disk :
  events (runPreconfigureScript Scenario.missingScript)
         (Scenario.world {[ "/ws/configure.sh" := "export CC=gcc" ]} None 0)
  = [CheckFileExistsSync "/ws/configure.sh";
     SpawnChildProcess "/bin/bash"
       ["-c"; JS.dquote +:+ "source /ws/configure.sh" +:+ JS.dquote] "/ws";
     LogMessage "spawn ENOENT"].
Proof. vm_compute. reflexivity. Qed.

(** ** The launcher: choosing the debugger *)

Lemma candidate_eq (h : Host) (directory mode : string) :
  (if String.eqb (platform h) "win32"
   then path_join h directory mode +:+ ".exe"
   else path_join h directory mode)
  = Spec.candidate h directory mode.
Proof.
  unfold Spec.candidate. destruct (String.eqb (platform h) "win32"); [done|].
  by rewrite append_empty_r.
Qed.

(** The guessed mode is one of the two debuggers. *)
Lemma guess_mode (h : Host) (compilerPath : option string) (mode : string) :
  miMode (initialGuess h compilerPath) = Some mode → mode = "gdb" ∨ mode = "lldb".
Proof.
  unfold initialGuess. cbn.
  repeat match goal with |- context [if ?b then _ else _] => destruct b end;
    intros [= <-]; auto.
Qed.

(** The guess carries a directory exactly for a parsed path of a compiler
    that is not MSVC; it then also carries a mode. *)
Lemma guess_directory_mode (h : Host) (compilerPath : option string) (directory : string) :
  miDebuggerPath (initialGuess h compilerPath) = Some directory →
  dbg (initialGuess h compilerPath) = "cppdbg" ∧
  ∃ mode, miMode (initialGuess h compilerPath) = Some mode.
Proof.
  unfold initialGuess. cbn.
  destruct compilerPath as [p|]; cbn; [|done].
  destruct (JS.truthy p); cbn; [|done].
  destruct (JS.startsWith (name (path_parse h p)) "clang"); cbn; [eauto|].
  destruct (JS.startsWith (name (path_parse h p)) "cl"); cbn; [done | eauto].
Qed.

(** No directory to look in, or no mode: nothing is probed. *)
Lemma selectDebugger_no_probe (h : Host) (compilerPath : option string) (w : World) :
  let g := initialGuess h compilerPath in
  miDebuggerPath g = None ∨ miDebuggerPath g = Some "" ∨ miMode g = None →
  selectDebugger h compilerPath w
  = ({| dbg := dbg g;
        miMode := miMode g;
        miDebuggerPath :=
          if bool_decide (miMode g = Some "lldb") && String.eqb (platform h) "darwin"
          then None else miDebuggerPath g |}, w).
Proof.
  intros g C. unfold selectDebugger. fold g.
  destruct (miDebuggerPath g) as [d|] eqn:D; destruct (miMode g) as [m|] eqn:Mo.
  - destruct C as [C|[C|C]]; try discriminate C. injection C as ->. run. reflexivity.
  - run. reflexivity.
  - run. reflexivity.
  - run. reflexivity.
Qed.

(** A directory and a mode: the guessed debugger is probed once, and the mode
    is swapped when it is not there. *)
Lemma selectDebugger_probe (h : Host) (compilerPath : option string) (w : World)
    (directory mode : string) :
  let g := initialGuess h compilerPath in
  miDebuggerPath g = Some directory →
  directory ≠ "" →
  miMode g = Some mode →
  let final :=
    if bool_decide (is_Some (files w !! Spec.candidate h directory mode))
    then mode else Spec.swap mode in
  selectDebugger h compilerPath w
  = ({| dbg := dbg g;
        miMode := Some final;
        miDebuggerPath :=
          if String.eqb final "lldb" && String.eqb (platform h) "darwin"
          then None else Some (Spec.candidate h directory final) |},
     record [CheckFileExistsSync (Spec.candidate h directory mode)] w).
Proof.
  intros g D N Mo final. unfold selectDebugger. fold g. rewrite D, Mo.
  apply truthy_true in N. rewrite N.
  assert (T : ∀ m, m = "gdb" ∨ m = "lldb" → JS.truthy m = true) by (by intros m [->| ->]).
  pose proof (guess_mode h compilerPath mode Mo) as GM.
  rewrite (T mode GM). unfold util.checkFileExistsSync. rewrite !candidate_eq. run.
  fold (Spec.swap mode). fold final.
  assert (FM : final = "gdb" ∨ final = "lldb").
  { subst final. destruct (bool_decide _); [done|]. by destruct GM as [-> | ->]; auto. }
  destruct (bool_decide (is_Some (files w !! Spec.candidate h directory mode))); cbn;
    fold final; rewrite (T final FM), candidate_eq;
    (replace (bool_decide (Some final = Some "lldb")) with (String.eqb final "lldb")
      by (by destruct FM as [-> | ->])); reflexivity.
Qed.

(** The choice depends on the files only, and the probes are all it records. *)
Lemma selectDebugger_records (h : Host) (compilerPath : option string) (w : World) :
  ∃ probes,
    (probes = [] ∨ ∃ p, probes = [CheckFileExistsSync p]) ∧
    ∀ evs, selectDebugger h compilerPath (record evs w)
           = ((selectDebugger h compilerPath w).1, record probes (record evs w)).
Proof.
  destruct (miDebuggerPath (initialGuess h compilerPath)) as [d|] eqn:D.
  - destruct (String.eqb_spec d "") as [->|N].
    + exists []. split; [by left|]. intros evs.
      by rewrite record_nil, !selectDebugger_no_probe by auto.
    + destruct (guess_directory_mode h compilerPath d D) as (_ & m & Mo).
      exists [CheckFileExistsSync (Spec.candidate h d m)]. split; [by eauto|]. intros evs.
      by rewrite (selectDebugger_probe h compilerPath w d m D N Mo),
                 (selectDebugger_probe h compilerPath (record evs w) d m D N Mo).
  - exists []. split; [by left|]. intros evs.
    by rewrite record_nil, !selectDebugger_no_probe by auto.
Qed.

(** The compiler path is fetched from the extension object, if there is one. *)
Lemma fetch_compiler_path (h : Host) (w : World) :
  match extension h with
  | Some makefileTools => emit GetCompilerFullPath;; mret (compilerFullPath makefileTools)
  | None => mret None
  end w
  = (getCompilerFullPath h, record (fetched h) w).
Proof.
  unfold getCompilerFullPath, fetched. destruct (extension h) as [m|]; run.
  - reflexivity.
  - by rewrite record_nil.
Qed.

Lemma fetched_known (h : Host) :
  JS.truthyOpt (getCompilerFullPath h) = true → fetched h = [GetCompilerFullPath].
Proof. unfold getCompilerFullPath, fetched. by destruct (extension h). Qed.

Lemma fetched_path (h : Host) (p : string) :
  getCompilerFullPath h = Some p → fetched h = [GetCompilerFullPath].
Proof. unfold getCompilerFullPath, fetched. by destruct (extension h). Qed.

Lemma fetched_directory (h : Host) (directory : string) :
  miDebuggerPath (initialGuess h (getCompilerFullPath h)) = Some directory →
  fetched h = [GetCompilerFullPath].
Proof.
  unfold getCompilerFullPath, fetched. by destruct (extension h).
Qed.

(** With a launch configuration, [debugCurrentTarget] fetches the compiler
    path, chooses the debugger and starts the session with that choice. *)
Lemma debugCurrentTarget_events (h : Host) (w : World) :
  is_Some (getCurrentLaunchConfiguration (configuration h)) →
  ∃ probes,
    events (debugCurrentTarget h) w
    = fetched h
      ++ probes ++ [StartDebugging (startFolder h)
                      (debugConfigOf h (selectDebugger h (getCompilerFullPath h) w).1)] ∧
    events (selectDebugger h (getCompilerFullPath h)) w = probes ∧
    (probes = [] ∨ ∃ p, probes = [CheckFileExistsSync p]).
Proof.
  intros [lc L].
  destruct (selectDebugger_records h (getCompilerFullPath h) w) as (probes & shape & R).
  exists probes. split; [|split; [|exact shape]].
  - apply events_of_trace.
    unfold debugCurrentTarget. rewrite L. unfold mbind at 1. unfold M_bind at 1.
    rewrite fetch_compiler_path. unfold mbind at 1. unfold M_bind at 1.
    rewrite R. unfold vscode.startDebugging, getActiveDebugSession, setActiveDebugSession,
      startFolder, debugConfigOf.
    destruct (workspaceFolders h); run; by rewrite <- !app_assoc.
  - pose proof (R []) as R0. rewrite record_nil in R0. by apply (events_record _ _ _ _ R0).
Qed.

(** The debugger type is the guessed one, whatever the probe finds. *)
Lemma selectDebugger_dbg (h : Host) (compilerPath : option string) (w : World) :
  dbg (selectDebugger h compilerPath w).1 = dbg (initialGuess h compilerPath).
Proof.
  destruct (miDebuggerPath (initialGuess h compilerPath)) as [d|] eqn:D.
  - destruct (String.eqb_spec d "") as [->|N].
    + by rewrite selectDebugger_no_probe by auto.
    + destruct (guess_directory_mode h compilerPath d D) as (_ & m & Mo).
      by rewrite (selectDebugger_probe h compilerPath w d m D N Mo).
  - by rewrite selectDebugger_no_probe by auto.
Qed.

(** The guess for a compiler path that is not empty, by its base name. *)
Lemma initialGuess_path (h : Host) (compilerPath : string) :
  compilerPath ≠ "" →
  let parsed := path_parse h compilerPath in
  initialGuess h (Some compilerPath)
  = if JS.startsWith (name parsed) "clang" then
      {| dbg := "cppdbg"; miMode := Some "lldb"; miDebuggerPath := Some (dir parsed) |}
    else if JS.startsWith (name parsed) "cl" then
      {| dbg := "cppvsdbg"; miMode := None; miDebuggerPath := None |}
    else
      {| dbg := "cppdbg"; miMode := Some "gdb"; miDebuggerPath := Some (dir parsed) |}.
Proof.
  intros N parsed. unfold initialGuess. apply truthy_true in N. rewrite N. cbn.
  fold parsed. destruct (JS.startsWith (name parsed) "clang"); cbn; [done|].
  by destruct (JS.startsWith (name parsed) "cl").
Qed.

(** C1: for every compiler path, [debugCurrentTarget] classifies by the base
    name: a name that begins with clang gives type cppdbg and mode lldb;
    otherwise a name that begins with cl gives type cppvsdbg with [miMode] and
    [miDebuggerPath] undefined (and nothing is probed); every other name gives
    type cppdbg and mode gdb.  The mode of the debug configuration is the
    classified one unless the probe of that debugger failed. *)
Theorem debugger_classification (h : Host) (w : World) (compilerPath : string) :
  is_Some (getCurrentLaunchConfiguration (configuration h)) →
  getCompilerFullPath h = Some compilerPath →
  compilerPath ≠ "" →
  let baseName := name (path_parse h compilerPath) in
  let guess := initialGuess h (Some compilerPath) in
  ∃ probes config,
    events (debugCurrentTarget h) w
    = GetCompilerFullPath :: probes ++ [StartDebugging (startFolder h) config] ∧
    (if JS.startsWith baseName "clang" then
       dc_type config = "cppdbg" ∧ miMode guess = Some "lldb"
     else if JS.startsWith baseName "cl" then
       dc_type config = "cppvsdbg" ∧ miMode guess = None ∧ probes = [] ∧
       dc_miMode config = None ∧ dc_miDebuggerPath config = None
     else
       dc_type config = "cppdbg" ∧ miMode guess = Some "gdb") ∧
    (dc_miMode config = miMode guess ∨
     ∃ directory mode,
       probes = [CheckFileExistsSync (Spec.candidate h directory mode)] ∧
       files w !! Spec.candidate h directory mode = None ∧
       miMode guess = Some mode ∧
       dc_miMode config = Some (Spec.swap mode)).
Proof.
  intros L C N baseName guess. subst baseName guess.
  destruct (debugCurrentTarget_events h w L) as (probes & E & P & _).
  rewrite (fetched_path h _ C) in E. rewrite C in E, P.
  exists probes, (debugConfigOf h (selectDebugger h (Some compilerPath) w).1).
  split; [exact E|]. clear E.
  pose proof (initialGuess_path h compilerPath N) as G. cbv zeta in G.
  pose proof (selectDebugger_dbg h (Some compilerPath) w) as T.
  remember (initialGuess h (Some compilerPath)) as guess eqn:G0.
  assert (NP : miDebuggerPath guess = None ∨ miDebuggerPath guess = Some "" ∨ miMode guess = None →
               probes = [] ∧
               (selectDebugger h (Some compilerPath) w).1
               = {| dbg := dbg guess; miMode := miMode guess;
                    miDebuggerPath :=
                      if bool_decide (miMode guess = Some "lldb")
                         && String.eqb (platform h) "darwin"
                      then None else miDebuggerPath guess |}).
  { intros Q. rewrite G0 in Q |- *.
    pose proof (selectDebugger_no_probe h (Some compilerPath) w Q) as S.
    split; [|by rewrite S].
    rewrite <- P.
    apply (events_record _ _ _ _ (eq_trans S (f_equal _ (eq_sym (record_nil w))))). }
  cbv [debugConfigOf dc_type dc_miMode dc_miDebuggerPath].
  split.
  - rewrite T.
    destruct (JS.startsWith (name (path_parse h compilerPath)) "clang"); [by rewrite G|].
    destruct (JS.startsWith (name (path_parse h compilerPath)) "cl"); [|by rewrite G].
    destruct NP as (-> & S); [by rewrite G; auto|]. rewrite S, G. by cbn.
  - destruct (miDebuggerPath guess) as [d|] eqn:D.
    + destruct (String.eqb_spec d "") as [->|ND].
      * left. destruct NP as (_ & S); [by auto|]. by rewrite S.
      * rewrite G0 in D.
        destruct (guess_directory_mode h (Some compilerPath) d D) as (_ & m & Mo).
        pose proof (selectDebugger_probe h (Some compilerPath) w d m D ND Mo) as S.
        cbv zeta in S. rewrite <- G0 in Mo, S.
        destruct (bool_decide (is_Some (files w !! Spec.candidate h d m))) eqn:Found.
        -- left. rewrite S. cbn. by rewrite Mo.
        -- right. exists d, m. split; [|split; [|split; [exact Mo|by rewrite S]]].
           ++ rewrite <- P. by apply (events_record _ _ _ _ S).
           ++ apply bool_decide_eq_false in Found.
              destruct (files w !! Spec.candidate h d m); [|done]. by destruct Found.
    + left. destruct NP as (_ & S); [by auto|]. by rewrite S.
Qed.

Lemma debugger_classification_witness :
  ∃ probes config,
    events (debugCurrentTarget Scenario.wineCl) (Scenario.world ∅ None 0)
    = GetCompilerFullPath :: probes ++ [StartDebugging (Some "/ws") config] ∧
    (dc_type config = "cppvsdbg" ∧
     miMode (initialGuess Scenario.wineCl (Some "/opt/msvc/bin/x64/cl.exe")) = None ∧
     probes = [] ∧ dc_miMode config = None ∧ dc_miDebuggerPath config = None) ∧
    (dc_miMode config = miMode (initialGuess Scenario.wineCl (Some "/opt/msvc/bin/x64/cl.exe")) ∨
     ∃ directory mode,
       probes = [CheckFileExistsSync (Spec.candidate Scenario.wineCl directory mode)] ∧
       files (Scenario.world ∅ None 0) !! Spec.candidate Scenario.wineCl directory mode = None ∧
       miMode (initialGuess Scenario.wineCl (Some "/opt/msvc/bin/x64/cl.exe")) = Some mode ∧
       dc_miMode config = Some (Spec.swap mode)).
Proof.
  apply (debugger_classification Scenario.wineCl (Scenario.world ∅ None 0)
           "/opt/msvc/bin/x64/cl.exe").
  - by eexists.
  - reflexivity.
  - discriminate.
Defined.

(** [clang-14] with lldb next to it: lldb, found where the compiler is. *)
Example clang_with_lldb :
  events (debugCurrentTarget Scenario.linuxClang) (Scenario.world Scenario.lldbOnly None 0)
  = [GetCompilerFullPath; CheckFileExistsSync "/usr/bin/lldb";
     StartDebugging (Some "/ws")
       (debugConfigOf Scenario.linuxClang
          {| dbg := "cppdbg"; miMode := Some "lldb"; miDebuggerPath := Some "/usr/bin/lldb" |})].
Proof. vm_compute. reflexivity. Qed.

(** [clang-14] without lldb: gdb, whether or not gdb is there. *)
Example clang_without_lldb :
  events (debugCurrentTarget Scenario.linuxClang) (Scenario.world ∅ None 0)
  = [GetCompilerFullPath; CheckFileExistsSync "/usr/bin/lldb";
     StartDebugging (Some "/ws")
       (debugConfigOf Scenario.linuxClang
          {| dbg := "cppdbg"; miMode := Some "gdb"; miDebuggerPath := Some "/usr/bin/gdb" |})].
Proof. vm_compute. reflexivity. Qed.

(** Without a compiler path (none, or the empty string) the guess is gdb under
    cppdbg, with no directory. *)
Lemma no_compiler_path_guess (h : Host) (compilerPath : option string) :
  JS.truthyOpt compilerPath = false →
  initialGuess h compilerPath
  = {| dbg := "cppdbg"; miMode := Some "gdb"; miDebuggerPath := None |}.
Proof.
  unfold initialGuess. destruct compilerPath as [p|]; cbn; [|done]. by intros ->.
Qed.

(** ** The launcher: the one-shot fallback *)

(** On macOS the fallback from gdb to lldb leaves the debugger path undefined
    instead of recomputing it; and for a compiler path without a directory
    nothing is probed and nothing is swapped, although no [gdb] file exists. *)
Lemma fallback_path_not_recomputed :
  (let h := Scenario.macGcc in
   let w := Scenario.world Scenario.lldbOnly None 0 in
   files w !! "/usr/bin/gdb" = None ∧
   files w !! "/usr/bin/lldb" = Some "lldb" ∧
   ∃ config,
     events (debugCurrentTarget h) w
     = [GetCompilerFullPath; CheckFileExistsSync "/usr/bin/gdb";
        StartDebugging (Some "/ws") config] ∧
     dc_miMode config = Some "lldb" ∧
     dc_miDebuggerPath config = None ∧
     dc_miDebuggerPath config ≠ Some "/usr/bin/lldb") ∧
  (let h := Scenario.bareGcc in
   let w := Scenario.world Scenario.lldbOnly None 0 in
   dir (path_parse h "gcc") = "" ∧
   files w !! path_join h (dir (path_parse h "gcc")) "gdb" = None ∧
   ∃ config,
     events (debugCurrentTarget h) w
     = [GetCompilerFullPath; StartDebugging (Some "/ws") config] ∧
     dc_miMode config = Some "gdb" ∧
     dc_miDebuggerPath config = Some "").
Proof.
  split; cbv zeta.
  - split; [reflexivity|]. split; [reflexivity|].
    eexists. split; [vm_compute; reflexivity|]. cbn. repeat split. discriminate.
  - split; [reflexivity|]. split; [reflexivity|].
    eexists. split; [vm_compute; reflexivity|]. cbn. by repeat split.
Qed.

(** C2, amended: for a compiler that is not MSVC and whose path has a
    directory, when the guessed debugger (that directory joined with gdb or
    lldb, with [.exe] on Windows only) is not on disk, the mode is swapped once
    and the debugger path is recomputed under the new name, except that on
    macOS a swap to lldb leaves the path undefined; the guessed debugger is the
    only file probed, whether or not the alternate exists.  In particular, off
    Windows and macOS, for [/usr/bin/gcc] with [/usr/bin/gdb] absent and
    [/usr/bin/lldb] present the mode is lldb and the path [/usr/bin/lldb]. *)
Theorem one_shot_fallback (h : Host) (w : World) :
  is_Some (getCurrentLaunchConfiguration (configuration h)) →
  (∀ directory mode,
     let guess := initialGuess h (getCompilerFullPath h) in
     miMode guess = Some mode →
     miDebuggerPath guess = Some directory →
     directory ≠ "" →
     files w !! Spec.candidate h directory mode = None →
     ∃ config,
       events (debugCurrentTarget h) w
       = [GetCompilerFullPath; CheckFileExistsSync (Spec.candidate h directory mode);
          StartDebugging (startFolder h) config] ∧
       dc_miMode config = Some (Spec.swap mode) ∧
       dc_miDebuggerPath config
       = (if String.eqb (Spec.swap mode) "lldb" && String.eqb (platform h) "darwin"
          then None else Some (Spec.candidate h directory (Spec.swap mode))) ∧
       count isProbe (events (debugCurrentTarget h) w) = 1) ∧
  (getCompilerFullPath h = Some "/usr/bin/gcc" →
   name (path_parse h "/usr/bin/gcc") = "gcc" →
   dir (path_parse h "/usr/bin/gcc") = "/usr/bin" →
   path_join h "/usr/bin" "gdb" = "/usr/bin/gdb" →
   path_join h "/usr/bin" "lldb" = "/usr/bin/lldb" →
   platform h ≠ "win32" →
   platform h ≠ "darwin" →
   files w !! "/usr/bin/gdb" = None →
   is_Some (files w !! "/usr/bin/lldb") →
   ∃ config,
     events (debugCurrentTarget h) w
     = [GetCompilerFullPath; CheckFileExistsSync "/usr/bin/gdb";
        StartDebugging (startFolder h) config] ∧
     dc_type config = "cppdbg" ∧
     dc_miMode config = Some "lldb" ∧
     dc_miDebuggerPath config = Some "/usr/bin/lldb").
Proof.
  intros L.
  assert (General : ∀ directory mode,
             miMode (initialGuess h (getCompilerFullPath h)) = Some mode →
             miDebuggerPath (initialGuess h (getCompilerFullPath h)) = Some directory →
             directory ≠ "" →
             files w !! Spec.candidate h directory mode = None →
             events (debugCurrentTarget h) w
             = [GetCompilerFullPath; CheckFileExistsSync (Spec.candidate h directory mode);
                StartDebugging (startFolder h)
                  (debugConfigOf h (selectDebugger h (getCompilerFullPath h) w).1)] ∧
             (selectDebugger h (getCompilerFullPath h) w).1
             = {| dbg := dbg (initialGuess h (getCompilerFullPath h));
                  miMode := Some (Spec.swap mode);
                  miDebuggerPath :=
                    if String.eqb (Spec.swap mode) "lldb" && String.eqb (platform h) "darwin"
                    then None else Some (Spec.candidate h directory (Spec.swap mode)) |}).
  { intros directory mode Mo D N Absent.
    destruct (debugCurrentTarget_events h w L) as (probes & E & P & _).
    rewrite (fetched_directory h _ D) in E.
    pose proof (selectDebugger_probe h (getCompilerFullPath h) w directory mode D N Mo) as S.
    cbv zeta in S. rewrite Absent in S.
    rewrite (bool_decide_eq_false_2 (is_Some None)) in S by (by intros [? ?]).
    rewrite (events_record _ _ _ _ S) in P. subst probes. split; [exact E | by rewrite S]. }
  split.
  - intros directory mode guess Mo D N Absent.
    destruct (General directory mode Mo D N Absent) as (E & S).
    eexists. split; [exact E|]. rewrite E.
    cbv [debugConfigOf dc_type dc_miMode dc_miDebuggerPath]. rewrite S. by cbn.
  - intros C Name Dir Gdb Lldb NW ND Absent _.
    pose proof (initialGuess_path h "/usr/bin/gcc") as G. cbv zeta in G.
    rewrite Name, Dir in G. cbn in G. specialize (G ltac:(discriminate)).
    apply String.eqb_neq in NW, ND.
    assert (Cg : Spec.candidate h "/usr/bin" "gdb" = "/usr/bin/gdb")
      by (unfold Spec.candidate; by rewrite NW, Gdb).
    assert (Cl : Spec.candidate h "/usr/bin" "lldb" = "/usr/bin/lldb")
      by (unfold Spec.candidate; by rewrite NW, Lldb).
    destruct (General "/usr/bin" "gdb") as (E & S).
    + by rewrite C, G.
    + by rewrite C, G.
    + discriminate.
    + by rewrite Cg.
    + eexists. split; [by rewrite E, Cg|].
      cbv [debugConfigOf dc_type dc_miMode dc_miDebuggerPath]. rewrite S, C, G. cbn.
      by rewrite ND, Cl.
Qed.

Lemma one_shot_fallback_witness :
  let h := Scenario.linuxGcc in
  let w := Scenario.world Scenario.lldbOnly None 0 in
  (∃ config,
     events (debugCurrentTarget h) w
     = [GetCompilerFullPath; CheckFileExistsSync (Spec.candidate h "/usr/bin" "gdb");
        StartDebugging (startFolder h) config] ∧
     dc_miMode config = Some (Spec.swap "gdb") ∧
     dc_miDebuggerPath config
     = (if String.eqb (Spec.swap "gdb") "lldb" && String.eqb (platform h) "darwin"
        then None else Some (Spec.candidate h "/usr/bin" (Spec.swap "gdb"))) ∧
     count isProbe (events (debugCurrentTarget h) w) = 1) ∧
  (∃ config,
     events (debugCurrentTarget h) w
     = [GetCompilerFullPath; CheckFileExistsSync "/usr/bin/gdb";
        StartDebugging (startFolder h) config] ∧
     dc_type config = "cppdbg" ∧
     dc_miMode config = Some "lldb" ∧
     dc_miDebuggerPath config = Some "/usr/bin/lldb").
Proof.
  cbv zeta.
  destruct (one_shot_fallback Scenario.linuxGcc (Scenario.world Scenario.lldbOnly None 0))
    as [General Particular].
  - by eexists.
  - split.
    + apply (General "/usr/bin" "gdb").
      * reflexivity.
      * reflexivity.
      * discriminate.
      * reflexivity.
    + apply Particular.
      * reflexivity.
      * reflexivity.
      * reflexivity.
      * reflexivity.
      * reflexivity.
      * discriminate.
      * discriminate.
      * reflexivity.
      * by eexists.
Defined.

(** C5: whenever the mode of the debug configuration is lldb and the platform
    is darwin, [miDebuggerPath] is undefined, whatever the files on disk; and
    this is the only case in which a directory taken from the compiler path is
    dropped. *)
Theorem darwin_lldb_path_unresolved (h : Host) (w : World)
    (folder : option WorkspaceFolder) (config : DebugConfiguration) :
  StartDebugging folder config ∈ events (debugCurrentTarget h) w →
  (platform h = "darwin" → dc_miMode config = Some "lldb" → dc_miDebuggerPath config = None) ∧
  (is_Some (miDebuggerPath (initialGuess h (getCompilerFullPath h))) →
   dc_miDebuggerPath config = None →
   dc_miMode config = Some "lldb" ∧ platform h = "darwin").
Proof.
  intros Started.
  assert (L : is_Some (getCurrentLaunchConfiguration (configuration h))).
  { destruct (getCurrentLaunchConfiguration (configuration h)) as [lc|] eqn:L; [by eexists|].
    exfalso. revert Started. unfold events, debugCurrentTarget. rewrite L.
    unfold vscode.showErrorMessage, logger.message. run.
    rewrite <- app_assoc, drop_app_length. cbn.
    intros I. apply elem_of_cons in I as [I|I]; [discriminate I|].
    apply elem_of_cons in I as [I|I]; [discriminate I|]. by apply elem_of_nil in I. }
  destruct (debugCurrentTarget_events h w L) as (probes & E & _ & shape).
  assert (C : config = debugConfigOf h (selectDebugger h (getCompilerFullPath h) w).1).
  { rewrite E in Started.
    apply elem_of_app in Started as [I|I].
    { unfold fetched in I. destruct (extension h); [|by apply elem_of_nil in I].
      apply list_elem_of_singleton in I. discriminate I. }
    apply elem_of_app in I as [I|I].
    - destruct shape as [->|[p ->]]; [by apply elem_of_nil in I|].
      apply list_elem_of_singleton in I. discriminate I.
    - apply list_elem_of_singleton in I. by injection I. }
  subst config. cbv [debugConfigOf dc_type dc_miMode dc_miDebuggerPath]. clear E Started shape.
  pose proof (selectDebugger_no_probe h (getCompilerFullPath h) w) as NP.
  pose proof (selectDebugger_probe h (getCompilerFullPath h) w) as PR.
  pose proof (guess_directory_mode h (getCompilerFullPath h)) as GD.
  cbv zeta in NP, PR.
  remember (initialGuess h (getCompilerFullPath h)) as guess eqn:G. clear G.
  destruct (miDebuggerPath guess) as [d|] eqn:D.
  - destruct (String.eqb_spec d "") as [->|N].
    + rewrite NP by auto. cbn. split.
      * intros -> ->. reflexivity.
      * intros _. destruct (bool_decide (miMode guess = Some "lldb")) eqn:B; cbn; [|done].
        destruct (String.eqb_spec (platform h) "darwin"); [|done].
        intros _. by apply bool_decide_eq_true in B.
    + destruct (GD d eq_refl) as (_ & m & Mo).
      rewrite (PR d m eq_refl N Mo). cbn.
      set (final := if bool_decide _ then m else Spec.swap m). split.
      * intros -> [= ->]. reflexivity.
      * intros _. destruct (String.eqb_spec final "lldb") as [->|]; cbn; [|done].
        by destruct (String.eqb_spec (platform h) "darwin").
  - rewrite NP by auto. cbn. split.
    + intros _ _. by destruct (_ && _).
    + by intros [? ?].
Qed.

Lemma darwin_lldb_path_unresolved_witness :
  let config :=
    {| dc_type := "cppdbg";
       dc_name := "Debug My Program";
       dc_request := "launch";
       dc_cwd := "${command:Makefile.launchCurrentDir}";
       dc_args := ["--verbose"; "input.txt"];
       dc_program := "${command:Makefile.launchTargetPath}";
       dc_miMode := Some "lldb";
       dc_miDebuggerPath := None |} in
  (platform Scenario.macClang = "darwin" →
   dc_miMode config = Some "lldb" → dc_miDebuggerPath config = None) ∧
  (is_Some (miDebuggerPath (initialGuess Scenario.macClang
                              (getCompilerFullPath Scenario.macClang))) →
   dc_miDebuggerPath config = None →
   dc_miMode config = Some "lldb" ∧ platform Scenario.macClang = "darwin").
Proof.
  cbv zeta.
  apply (darwin_lldb_path_unresolved Scenario.macClang
           (Scenario.world {[ "/usr/bin/lldb" := "lldb" ]} None 0) (Some "/ws")).
  vm_compute. apply list_elem_of_further, list_elem_of_further, list_elem_of_here.
Defined.

(** ** The launcher: no launch configuration *)

(** C8: with no launch configuration, [debugCurrentTarget] and
    [runCurrentTarget] both show the error message, log the explanation and
    stop; the compiler path is not fetched, no file is probed and no debug
    session is started.  ([runCurrentTarget] has created its terminal by
    then, when it retained none.) *)
Theorem no_launch_configuration_aborts (h : Host) (w : World) :
  getCurrentLaunchConfiguration (configuration h) = None →
  debugCurrentTarget h w = (None, record [noLaunchError; noLaunchEntry] w) ∧
  events (runCurrentTarget h) w
  = match launchTerminal w with
    | Some _ => []
    | None => [CreateTerminal (terminalOptionsOf h) (terminals w)]
    end ++ [noLaunchError; noLaunchEntry] ∧
  count isSelection (events (debugCurrentTarget h) w) = 0 ∧
  count isSelection (events (runCurrentTarget h) w) = 0.
Proof.
  intros L.
  assert (D : debugCurrentTarget h w = (None, record [noLaunchError; noLaunchEntry] w)).
  { unfold debugCurrentTarget. rewrite L. unfold vscode.showErrorMessage, logger.message.
    run. unfold record. cbn. by rewrite <- !app_assoc. }
  assert (R : events (runCurrentTarget h) w
              = match launchTerminal w with
                | Some _ => []
                | None => [CreateTerminal (terminalOptionsOf h) (terminals w)]
                end ++ [noLaunchError; noLaunchEntry]).
  { apply events_of_trace. unfold runCurrentTarget. rewrite L.
    unfold vscode.showErrorMessage, logger.message, vscode.createTerminal,
      getLaunchTerminal, setLaunchTerminal, freshTerminal.
    run. destruct (launchTerminal w) as [t|]; run.
    - by rewrite <- !app_assoc.
    - unfold terminalOptionsOf. destruct (String.eqb (platform h) "win32");
        by rewrite <- !app_assoc. }
  split; [exact D|]. split; [exact R|]. split.
  - by rewrite (events_record _ _ _ _ D).
  - rewrite R. by destruct (launchTerminal w).
Qed.

Lemma no_launch_configuration_aborts_witness :
  let h := Scenario.noLaunch in
  let w := Scenario.world Scenario.lldbOnly None 0 in
  debugCurrentTarget h w = (None, record [noLaunchError; noLaunchEntry] w) ∧
  events (runCurrentTarget h) w
  = [CreateTerminal (terminalOptionsOf h) 0] ++ [noLaunchError; noLaunchEntry] ∧
  count isSelection (events (debugCurrentTarget h) w) = 0 ∧
  count isSelection (events (runCurrentTarget h) w) = 0.
Proof.
  apply (no_launch_configuration_aborts Scenario.noLaunch
           (Scenario.world Scenario.lldbOnly None 0)).
  reflexivity.
Defined.

(** ** The launcher: the retained terminal *)

(** [runCurrentTarget] keeps the retained terminals among the issued ones, and
    so does the close watcher. *)
Lemma runCurrentTarget_issued (h : Host) (w : World) :
  retainedTerminalIssued w → retainedTerminalIssued (runCurrentTarget h w).2.
Proof.
  unfold retainedTerminalIssued, runCurrentTarget, vscode.createTerminal,
    vscode.showErrorMessage, logger.message, vscode.sendText, vscode.show,
    getLaunchTerminal, setLaunchTerminal, freshTerminal.
  intros I t. run.
  destruct (launchTerminal w) as [t0|] eqn:T;
    destruct (getCurrentLaunchConfiguration (configuration h)); run;
    rewrite ?T; intros [= <-]; auto.
Qed.

Lemma onTerminalClose_issued (term : Terminal) (w : World) :
  retainedTerminalIssued w → retainedTerminalIssued (onTerminalClose term w).2.
Proof.
  unfold retainedTerminalIssued, onTerminalClose, getLaunchTerminal, setLaunchTerminal.
  intros I t. run. destruct (bool_decide (launchTerminal w = Some term)); run; [done | auto].
Qed.

(** A retained terminal is reused: no terminal is created. *)
Lemma retained_terminal_reused (h : Host) (w : World) (t : Terminal) :
  launchTerminal w = Some t →
  (runCurrentTarget h w).1 = t ∧
  launchTerminal (runCurrentTarget h w).2 = Some t ∧
  terminals (runCurrentTarget h w).2 = terminals w.
Proof.
  unfold runCurrentTarget, vscode.showErrorMessage, logger.message, vscode.sendText,
    vscode.show, getLaunchTerminal, setLaunchTerminal.
  intros T. run. rewrite T.
  by destruct (getCurrentLaunchConfiguration (configuration h)); run.
Qed.

(** C9: the launcher retains one optional terminal.  When the retained terminal
    is closed, the close watcher clears the handle, and the next
    [runCurrentTarget] creates a new terminal, retains it and sends its text to
    it, never to the closed one; closing any other terminal changes nothing. *)
Theorem closed_terminal_is_replaced (h : Host) (w : World) (t : Terminal) :
  launchTerminal w = Some t →
  t < terminals w →
  let closed := (onTerminalClose t w).2 in
  let next := runCurrentTarget h closed in
  launchTerminal closed = None ∧
  (∀ other, other ≠ t → onTerminalClose other w = (tt, w)) ∧
  next.1 ≠ t ∧
  launchTerminal next.2 = Some next.1 ∧
  events (runCurrentTarget h) closed
  = CreateTerminal (terminalOptionsOf h) next.1
    :: match getCurrentLaunchConfiguration (configuration h) with
       | Some _ =>
           [SendText next.1 (JS.dquote +:+ launchTargetPath h +:+ JS.dquote +:+ " "
                             +:+ JS.join " " (launchTargetArgs h));
            ShowTerminal next.1]
       | None => [noLaunchError; noLaunchEntry]
       end ∧
  (∀ text, SendText t text ∉ events (runCurrentTarget h) closed).
Proof.
  intros T Issued closed next.
  assert (C : closed = {| trace := trace w; files := files w; launchTerminal := None;
                          terminals := terminals w;
                          activeDebugSession := activeDebugSession w |}).
  { subst closed. unfold onTerminalClose, getLaunchTerminal, setLaunchTerminal. run.
    rewrite T. by rewrite bool_decide_eq_true_2. }
  assert (N : next.1 = terminals w).
  { subst next. rewrite C.
    unfold runCurrentTarget, vscode.createTerminal, vscode.showErrorMessage, logger.message,
      vscode.sendText, vscode.show, getLaunchTerminal, setLaunchTerminal, freshTerminal.
    run. by destruct (getCurrentLaunchConfiguration (configuration h)). }
  assert (E : events (runCurrentTarget h) closed
              = CreateTerminal (terminalOptionsOf h) next.1
                :: match getCurrentLaunchConfiguration (configuration h) with
                   | Some _ =>
                       [SendText next.1 (JS.dquote +:+ launchTargetPath h +:+ JS.dquote +:+ " "
                                         +:+ JS.join " " (launchTargetArgs h));
                        ShowTerminal next.1]
                   | None => [noLaunchError; noLaunchEntry]
                   end).
  { rewrite N. apply events_of_trace. rewrite C.
    unfold runCurrentTarget, vscode.createTerminal, vscode.showErrorMessage, logger.message,
      vscode.sendText, vscode.show, getLaunchTerminal, setLaunchTerminal, freshTerminal,
      terminalOptionsOf.
    run.
    destruct (getCurrentLaunchConfiguration (configuration h));
      destruct (String.eqb (platform h) "win32"); run; rewrite <- !app_assoc; cbn;
      rewrite ?append_assoc; reflexivity. }
  split; [by rewrite C|]. split; [|split; [|split; [|split; [exact E|]]]].
  - intros other O. unfold onTerminalClose, getLaunchTerminal, setLaunchTerminal. run.
    rewrite T. rewrite bool_decide_eq_false_2; [done|]. intros [= ->]. by apply O.
  - rewrite N. lia.
  - subst next. rewrite C.
    unfold runCurrentTarget, vscode.createTerminal, vscode.showErrorMessage, logger.message,
      vscode.sendText, vscode.show, getLaunchTerminal, setLaunchTerminal, freshTerminal.
    run. by destruct (getCurrentLaunchConfiguration (configuration h)).
  - intros text. rewrite E, N. intros I.
    apply elem_of_cons in I as [I|I]; [discriminate I|].
    destruct (getCurrentLaunchConfiguration (configuration h)).
    + apply elem_of_cons in I as [I|I]; [injection I as -> _; lia|].
      apply list_elem_of_singleton in I. discriminate I.
    + apply elem_of_cons in I as [I|I]; [discriminate I|].
      apply list_elem_of_singleton in I. discriminate I.
Qed.

Lemma closed_terminal_is_replaced_witness :
  let h := Scenario.linuxGcc in
  let closed := (onTerminalClose 0 (Scenario.world ∅ (Some 0) 1)).2 in
  launchTerminal closed = None ∧
  (runCurrentTarget h closed).1 ≠ 0 ∧
  launchTerminal (runCurrentTarget h closed).2 = Some (runCurrentTarget h closed).1 ∧
  ∀ text, SendText 0 text ∉ events (runCurrentTarget h) closed.
Proof.
  cbv zeta.
  destruct (closed_terminal_is_replaced Scenario.linuxGcc (Scenario.world ∅ (Some 0) 1) 0)
    as (Cleared & _ & Fresh & Retained & _ & Unused).
  - reflexivity.
  - cbn. lia.
  - repeat split; assumption.
Defined.

(** * Further properties of the code *)

(** ** [make.ts]: the build *)

Lemma count_cons (kind : Event → bool) (e : Event) (t : list Event) :
  count kind (e :: t) = (if kind e then 1 else 0) + count kind t.
Proof.
  unfold count. rewrite filter_cons.
  destruct (decide (kind e = true)) as [K|K]; [by rewrite K|].
  by destruct (kind e).
Qed.

Lemma count_fragmentLog (kind : Event → bool) (output : list Fragment) :
  (∀ text, kind (LogMessageNoCR text) = false) →
  count kind (map fragmentLog output) = 0.
Proof.
  intros K. induction output as [|[text|text] rest IH]; [done| |];
    cbn [map fragmentLog]; by rewrite count_cons, K, IH.
Qed.

(** The output callbacks of [buildCurrentTarget] log every fragment. *)
Lemma forward_output (output : list Fragment) (w : World) :
  foldM (λ (s : ()) (fragment : Fragment),
           match fragment with
           | Stdout text => logger.messageNoCR text
           | Stderr text => logger.messageNoCR text
           end) () output w
  = (tt, record (map fragmentLog output) w).
Proof.
  revert w. induction output as [|[text|text] rest IH]; intros w; cbn.
  - by rewrite record_nil.
  - unfold logger.messageNoCR. run. rewrite IH. unfold record. cbn. by rewrite <- app_assoc.
  - unfold logger.messageNoCR. run. rewrite IH. unfold record. cbn. by rewrite <- app_assoc.
Qed.

(** Everything [buildCurrentTarget] does. *)
Lemma buildCurrentTarget_run (h : Host) (w : World) :
  let makeArgs := (prepareBuildCurrentTarget h w).1 in
  let command := getConfigurationMakeCommand (configuration h) in
  buildCurrentTarget h w
  = (tt, record
           ([LogMessage ("Building the current target. Command: "
                         +:+ command +:+ " " +:+ JS.join " " makeArgs);
             SpawnChildProcess command makeArgs (JS.orElse (rootPath h) "")]
            ++ match processes h command makeArgs (JS.orElse (rootPath h) "") with
               | SpawnError error => [LogMessage error]
               | Exit output retCode _ =>
                   map fragmentLog output
                   ++ [LogMessage (if (retCode =? 0)%Z
                                   then "The current target built successfully."
                                   else "The current target failed to build.")]
               end) w).
Proof.
  intros makeArgs command. subst makeArgs.
  unfold buildCurrentTarget. unfold mbind at 1. unfold M_bind at 1.
  rewrite prepareBuildCurrentTarget_run. cbv zeta. cbn [fst].
  set (makeArgs := Spec.assembleArgs _ _ _ _). fold command.
  pose proof forward_output as F.
  unfold util.spawnChildProcess, logger.message, logger.messageNoCR in *. run.
  destruct (processes h command makeArgs (JS.orElse (rootPath h) ""))
    as [error|output retCode signal].
  - run. unfold record. cbn. by rewrite <- !app_assoc.
  - run. rewrite F. cbn.
    destruct (retCode =? 0)%Z; cbn; unfold record; cbn; by rewrite <- !app_assoc.
Qed.

(** X1: [buildCurrentTarget] logs the command line, spawns make with the
    prepared arguments in the workspace root, forwards every output fragment to
    the log in the order it arrives (stdout and stderr alike, without adding a
    line break), and ends with the verdict for the return code; when the spawn
    itself fails the error is logged instead. *)
Theorem build_forwards_output_and_reports (h : Host) (w : World) :
  let makeArgs := (prepareBuildCurrentTarget h w).1 in
  let command := getConfigurationMakeCommand (configuration h) in
  events (buildCurrentTarget h) w
  = [LogMessage ("Building the current target. Command: "
                 +:+ command +:+ " " +:+ JS.join " " makeArgs);
     SpawnChildProcess command makeArgs (JS.orElse (rootPath h) "")]
    ++ match processes h command makeArgs (JS.orElse (rootPath h) "") with
       | SpawnError error => [LogMessage error]
       | Exit output retCode _ =>
           map fragmentLog output
           ++ [LogMessage (if (retCode =? 0)%Z
                           then "The current target built successfully."
                           else "The current target failed to build.")]
       end.
Proof.
  intros makeArgs command. apply (events_record _ _ tt).
  apply buildCurrentTarget_run.
Qed.

(** X2: whatever the make process does, the calls [buildCurrentTarget] makes
    are one spawn and log entries, nothing else: it shows no error message,
    never calls [ext.updateProvider], [util.reportDryRunError] or
    [fs.writeFileSync], creates no terminal and starts no debug session. *)
Theorem build_is_silent (h : Host) (w : World) :
  count isSpawn (events (buildCurrentTarget h) w) = 1 ∧
  count isPopup (events (buildCurrentTarget h) w) = 0 ∧
  count isUpdate (events (buildCurrentTarget h) w) = 0 ∧
  count isDryRunError (events (buildCurrentTarget h) w) = 0 ∧
  count isWrite (events (buildCurrentTarget h) w) = 0 ∧
  count isCreate (events (buildCurrentTarget h) w) = 0 ∧
  count isStart (events (buildCurrentTarget h) w) = 0 ∧
  forallb (λ e, isLog e || isSpawn e) (events (buildCurrentTarget h) w) = true.
Proof.
  pose proof (buildCurrentTarget_run h w) as R. cbv zeta in R.
  rewrite (events_record _ _ _ _ R).
  assert (F : ∀ output, forallb (λ e, isLog e || isSpawn e) (map fragmentLog output) = true).
  { induction output as [|[text|text] rest IH]; [done| |]; cbn; exact IH. }
  destruct (processes h _ _ _) as [error|output retCode signal];
    rewrite ?count_app, ?count_fragmentLog by done; repeat split; try done.
  cbn. rewrite forallb_app, F. reflexivity.
Qed.

(** ** [make.ts]: the dry run *)

(** When a build log was parsed, [parseBuildOrDryRun] does nothing more. *)
Lemma parseBuildOrDryRun_parsed (h : Host) (w : World) :
  (parseBuild h w).1 = true → parseBuildOrDryRun h w = (tt, (parseBuild h w).2).
Proof.
  intros E. unfold parseBuildOrDryRun. unfold mbind at 1. unfold M_bind at 1.
  destruct (parseBuild h w) as [parsed w']. cbn in E. by subst parsed.
Qed.

(** The events and the files of the dry run. *)
Lemma parseBuildOrDryRun_dry_run_events (h : Host) (w : World) :
  (parseBuild h w).1 = false →
  let makeArgs :=
    (prepareBuildCurrentTarget h w).1
    ++ "--dry-run" :: default [] (getDryRunSwitches (configuration h)) in
  let command := getConfigurationMakeCommand (configuration h) in
  let cache := getDryrunCache (configuration h) in
  events (parseBuildOrDryRun h) w
  = events (parseBuild h) w
    ++ [LogMessage ("Generating the make dry-run output for parsing IntelliSense information. Command: "
                    +:+ command +:+ " " +:+ JS.join " " makeArgs);
        SpawnChildProcess command makeArgs (JS.orElse (rootPath h) "")]
    ++ match processes h command makeArgs (JS.orElse (rootPath h) "") with
       | SpawnError error => [LogMessage error]
       | Exit output retCode _ =>
           (if (retCode =? 0)%Z then []
            else [LogMessage "The make dry-run command failed. IntelliSense may work only partially or not at all.";
                  LogMessage (stderrOf output);
                  ReportDryRunError])
           ++ WriteFileSync cache (stdoutOf output)
              :: match writeFailure h cache with
                 | None => [UpdateProvider (stdoutOf output)]
                 | Some failure =>
                     if rejectsCallbackErrors h then [LogMessage failure] else []
                 end
       end ∧
  files (parseBuildOrDryRun h w).2
  = match processes h command makeArgs (JS.orElse (rootPath h) ""),
          writeFailure h cache with
    | Exit output _ _, None => <[cache := stdoutOf output]> (files w)
    | _, _ => files w
    end ∧
  (events (parseBuild h) w = [] ∨ ∃ file, events (parseBuild h) w = [ReadFile file]).
Proof.
  intros E makeArgs command cache. destruct (parseBuild_false h w E) as (reads & R & shape).
  pose proof (parseBuildOrDryRun_dry_run h w reads R) as D. cbv zeta in D.
  assert (A : makeArgs
              = Spec.assembleArgs (Spec.nonEmpty (getCurrentTarget (configuration h)))
                  (getConfigurationMakeArgs (configuration h)) true
                  (getDryRunSwitches (configuration h))).
  { subst makeArgs. rewrite prepareBuildCurrentTarget_run. cbv zeta. cbn [fst].
    unfold Spec.assembleArgs. cbv iota. by rewrite app_nil_r, <- !app_assoc. }
  rewrite <- A in D. fold command cache in D.
  rewrite (events_record _ _ _ _ R).
  split; [|split; [|exact shape]].
  - apply events_of_trace. rewrite D.
    destruct (processes h command makeArgs (JS.orElse (rootPath h) ""))
      as [error|output retCode signal]; cbn; [by rewrite <- !app_assoc|].
    destruct (writeFailure h cache) as [failure|];
      [destruct (rejectsCallbackErrors h)|];
      destruct (retCode =? 0)%Z; cbn; by rewrite <- ?app_assoc.
  - rewrite D.
    destruct (processes h command makeArgs (JS.orElse (rootPath h) "")); [done|].
    by destruct (writeFailure h cache).
Qed.

(** X3: when the dry-run make cannot be spawned, the error is logged and that
    is all: nothing is handed to [ext.updateProvider], no dry-run error is
    reported and no file is written. *)
Theorem dry_run_spawn_failure (h : Host) (w : World) (error : string) :
  (parseBuild h w).1 = false →
  processes h (getConfigurationMakeCommand (configuration h))
    ((prepareBuildCurrentTarget h w).1
     ++ "--dry-run" :: default [] (getDryRunSwitches (configuration h)))
    (JS.orElse (rootPath h) "")
  = SpawnError error →
  (∃ start, events (parseBuildOrDryRun h) w = start ++ [LogMessage error] ∧
            count isSpawn start = 1) ∧
  count isUpdate (events (parseBuildOrDryRun h) w) = 0 ∧
  count isDryRunError (events (parseBuildOrDryRun h) w) = 0 ∧
  files (parseBuildOrDryRun h w).2 = files w.
Proof.
  intros E P. destruct (parseBuild_false h w E) as (reads & R & shape).
  pose proof (parseBuildOrDryRun_dry_run h w reads R) as D. cbv zeta in D.
  rewrite prepareBuildCurrentTarget_run in P. cbv zeta in P. cbn [fst] in P.
  assert (A : Spec.assembleArgs (Spec.nonEmpty (getCurrentTarget (configuration h)))
                (getConfigurationMakeArgs (configuration h)) false
                (getDryRunSwitches (configuration h))
              ++ "--dry-run" :: default [] (getDryRunSwitches (configuration h))
              = Spec.assembleArgs (Spec.nonEmpty (getCurrentTarget (configuration h)))
                  (getConfigurationMakeArgs (configuration h)) true
                  (getDryRunSwitches (configuration h))).
  { unfold Spec.assembleArgs. cbv iota. by rewrite app_nil_r, <- !app_assoc. }
  rewrite A in P. rewrite P in D.
  rewrite (events_record _ _ _ _ D), D.
  split; [|split; [|split]]; [| | |done].
  - eexists. split; [reflexivity|]. rewrite count_app.
    by destruct shape as [->|[f ->]].
  - rewrite !count_app. by destruct shape as [->|[f ->]].
  - rewrite !count_app. by destruct shape as [->|[f ->]].
Qed.

Lemma dry_run_spawn_failure_witness :
  count isUpdate (events (parseBuildOrDryRun Cases.noMake) (Scenario.world ∅ None 0)) = 0 ∧
  count isDryRunError (events (parseBuildOrDryRun Cases.noMake) (Scenario.world ∅ None 0)) = 0 ∧
  files (parseBuildOrDryRun Cases.noMake (Scenario.world ∅ None 0)).2 = ∅.
Proof.
  destruct (dry_run_spawn_failure Cases.noMake (Scenario.world ∅ None 0) "spawn ENOENT")
    as (_ & U & E & F).
  - reflexivity.
  - reflexivity.
  - repeat split; assumption.
Defined.

(** What a successful [parseBuild] has found and done. *)
Lemma parseBuild_true (h : Host) (w : World) :
  (parseBuild h w).1 = true →
  ∃ file content,
    getConfigurationBuildLog (configuration h) = Some file ∧ file ≠ "" ∧
    files w !! file = Some content ∧ content ≠ "" ∧
    parseBuild h w
    = (true, record [ReadFile file;
                     LogMessage ("Parsing the provided build log " +:+ JS.dquote +:+ file
                                 +:+ JS.dquote
                                 +:+ " for IntelliSense integration with CppTools...");
                     UpdateProvider content] w).
Proof.
  rewrite parseBuild_run.
  destruct (getConfigurationBuildLog (configuration h)) as [file|]; [|done].
  destruct (JS.truthy file) eqn:TF; [|done].
  destruct (files w !! file) as [content|] eqn:F; [|done].
  destruct (JS.truthy content) eqn:TC; [|done]. intros _.
  exists file, content. by rewrite <- !truthy_true.
Qed.

(** X4: [parseBuild] succeeds exactly when a build-log path is configured (not
    empty) and the file there exists and is not empty; [parseBuildOrDryRun]
    spawns make exactly once when it does not succeed and never when it does.
    An empty or missing build log therefore leads to the dry run. *)
Theorem dry_run_iff_no_usable_build_log (h : Host) (w : World) :
  ((parseBuild h w).1 = true ↔
   ∃ file content,
     getConfigurationBuildLog (configuration h) = Some file ∧ file ≠ "" ∧
     files w !! file = Some content ∧ content ≠ "") ∧
  count isSpawn (events (parseBuildOrDryRun h) w) = (if (parseBuild h w).1 then 0 else 1).
Proof.
  split.
  - split.
    + intros E. destruct (parseBuild_true h w E) as (file & content & ? & ? & ? & ? & _).
      by exists file, content.
    + intros (file & content & L & NF & F & NC). rewrite parseBuild_run, L, F.
      apply truthy_true in NF, NC. by rewrite NF, NC.
  - destruct (parseBuild h w).1 eqn:E.
    + destruct (parseBuild_true h w E) as (file & content & _ & _ & _ & _ & R).
      pose proof (parseBuildOrDryRun_parsed h w E) as P. rewrite R in P.
      by rewrite (events_record _ _ _ _ P).
    + destruct (parseBuildOrDryRun_dry_run_events h w E) as (T & _ & shape).
      cbv zeta in T. rewrite T, !count_app.
      assert (count isSpawn (events (parseBuild h) w) = 0) as ->
        by (by destruct shape as [->|[f ->]]).
      destruct (processes h _ _ _) as [error|output retCode signal]; [done|].
      rewrite count_app, count_cons.
      destruct (writeFailure h _); [destruct (rejectsCallbackErrors h)|];
        by destruct (retCode =? 0)%Z.
Qed.

(** X5: the dry run, event by event, when the cache file can be written: after
    what [parseBuild] did, the command line is logged exactly as it is spawned
    (the build's arguments, then [--dry-run] and the switches); the output is
    captured, never forwarded to the log; only on a non-zero return code the
    failure and the captured stderr are logged and the dry-run error is
    reported; the cache is written before [ext.updateProvider] is called. *)
Theorem dry_run_trace (h : Host) (w : World) :
  (parseBuild h w).1 = false →
  writeFailure h (getDryrunCache (configuration h)) = None →
  let makeArgs :=
    (prepareBuildCurrentTarget h w).1
    ++ "--dry-run" :: default [] (getDryRunSwitches (configuration h)) in
  let command := getConfigurationMakeCommand (configuration h) in
  let cache := getDryrunCache (configuration h) in
  events (parseBuildOrDryRun h) w
  = events (parseBuild h) w
    ++ [LogMessage ("Generating the make dry-run output for parsing IntelliSense information. Command: "
                    +:+ command +:+ " " +:+ JS.join " " makeArgs);
        SpawnChildProcess command makeArgs (JS.orElse (rootPath h) "")]
    ++ match processes h command makeArgs (JS.orElse (rootPath h) "") with
       | SpawnError error => [LogMessage error]
       | Exit output retCode _ =>
           (if (retCode =? 0)%Z then []
            else [LogMessage "The make dry-run command failed. IntelliSense may work only partially or not at all.";
                  LogMessage (stderrOf output);
                  ReportDryRunError])
           ++ [WriteFileSync cache (stdoutOf output); UpdateProvider (stdoutOf output)]
       end.
Proof.
  intros E W. destruct (parseBuildOrDryRun_dry_run_events h w E) as (T & _).
  cbv zeta in T |- *. by rewrite W in T.
Qed.

Lemma dry_run_trace_witness :
  events (parseBuildOrDryRun Scenario.linuxGcc) (Scenario.world ∅ None 0)
  = [LogMessage "Generating the make dry-run output for parsing IntelliSense information. Command: make all -j4 -C src --dry-run --always-make --keep-going";
     SpawnChildProcess "make"
       ["all"; "-j4"; "-C"; "src"; "--dry-run"; "--always-make"; "--keep-going"] "/ws";
     LogMessage "The make dry-run command failed. IntelliSense may work only partially or not at all.";
     LogMessage "make: *** No rule to make target. ";
     ReportDryRunError;
     WriteFileSync "/ws/.vscode/dryrun.log" "cc -c a.c; cc -c b.c; ";
     UpdateProvider "cc -c a.c; cc -c b.c; "].
Proof.
  apply (dry_run_trace Scenario.linuxGcc (Scenario.world ∅ None 0)).
  - reflexivity.
  - reflexivity.
Defined.

(** X6: when the dry-run cache file is also the configured build log and can
    be written, a dry run that captured some output is followed by a parse of
    that output: the next [parseBuildOrDryRun] reads the cache, hands the same
    text to [ext.updateProvider] and spawns nothing. *)
Theorem cached_dry_run_is_parsed_next (h : Host) (w : World)
    (output : list Fragment) (retCode : Z) (signal : string) :
  let cache := getDryrunCache (configuration h) in
  getConfigurationBuildLog (configuration h) = Some cache →
  writeFailure h cache = None →
  (parseBuild h w).1 = false →
  processes h (getConfigurationMakeCommand (configuration h))
    ((prepareBuildCurrentTarget h w).1
     ++ "--dry-run" :: default [] (getDryRunSwitches (configuration h)))
    (JS.orElse (rootPath h) "")
  = Exit output retCode signal →
  stdoutOf output ≠ "" →
  events (parseBuildOrDryRun h) (parseBuildOrDryRun h w).2
  = [ReadFile cache;
     LogMessage ("Parsing the provided build log " +:+ JS.dquote +:+ cache +:+ JS.dquote
                 +:+ " for IntelliSense integration with CppTools...");
     UpdateProvider (stdoutOf output)].
Proof.
  intros cache L W E P NO.
  assert (NC : cache ≠ "") by (intros Z; unfold writeFailure in W; by rewrite Z in W).
  destruct (parseBuildOrDryRun_dry_run_events h w E) as (_ & F & _). cbv zeta in F.
  rewrite P in F. fold cache in F. rewrite W in F.
  set (w1 := (parseBuildOrDryRun h w).2) in *.
  assert (R : parseBuild h w1
              = (true, record [ReadFile cache;
                               LogMessage ("Parsing the provided build log " +:+ JS.dquote
                                           +:+ cache +:+ JS.dquote
                                           +:+ " for IntelliSense integration with CppTools...");
                               UpdateProvider (stdoutOf output)] w1)).
  { rewrite parseBuild_run, L, F, lookup_insert_eq.
    apply truthy_true in NC, NO. by rewrite NC, NO. }
  pose proof (parseBuildOrDryRun_parsed h w1) as Q. rewrite R in Q.
  by apply (events_record _ _ _ _ (Q eq_refl)).
Qed.

Lemma cached_dry_run_is_parsed_next_witness :
  events (parseBuildOrDryRun Cases.cacheAsLog)
         (parseBuildOrDryRun Cases.cacheAsLog (Scenario.world ∅ None 0)).2
  = [ReadFile "/ws/.vscode/dryrun.log";
     LogMessage ("Parsing the provided build log " +:+ JS.dquote +:+ "/ws/.vscode/dryrun.log"
                 +:+ JS.dquote +:+ " for IntelliSense integration with CppTools...");
     UpdateProvider "cc -c a.c; cc -c b.c; "].
Proof.
  apply (cached_dry_run_is_parsed_next Cases.cacheAsLog (Scenario.world ∅ None 0)
           [Stdout "cc -c a.c; "; Stderr "make: *** No rule to make target. ";
            Stdout "cc -c b.c; "] 2 "").
  - reflexivity.
  - reflexivity.
  - reflexivity.
  - reflexivity.
  - discriminate.
Defined.

(** ** [make.ts]: running the pre-configure script *)

(** Everything [runPreconfigureScript] does. *)
Lemma runPreconfigureScript_run (h : Host) (w : World) :
  let notFound :=
    [ShowErrorMessage "Could not find pre-configure script.";
     LogMessage "Make sure a pre-configuration script path is defined with makefile.preconfigureScript and that it exists on disk."] in
  runPreconfigureScript h w
  = (tt, record
           match getPreconfigureScript (configuration h) with
           | Some file =>
               if JS.truthy file then
                 CheckFileExistsSync file
                 :: (if bool_decide (is_Some (files w !! file)) then
                       SpawnChildProcess (scriptCommand h file).1 (scriptCommand h file).2
                         (JS.orElse (rootPath h) "")
                       :: match processes h (scriptCommand h file).1 (scriptCommand h file).2
                                  (JS.orElse (rootPath h) "") with
                          | SpawnError error => [LogMessage error]
                          | Exit output retCode _ =>
                              if (retCode =? 0)%Z
                              then [LogMessage "The preconfigure script run successfully."]
                              else [LogMessage "The preconfigure script failed. This project may not configure successfully.";
                                    LogMessage (stderrOf output)]
                          end
                     else notFound)
               else notFound
           | None => notFound
           end w).
Proof.
  intros notFound. unfold runPreconfigureScript, vscode.showErrorMessage,
    util.checkFileExistsSync.
  assert (NF : ∀ w0, (emit (ShowErrorMessage "Could not find pre-configure script.");;
                      logger.message "Make sure a pre-configuration script path is defined with makefile.preconfigureScript and that it exists on disk.") w0
                     = (tt, record notFound w0)).
  { intros w0. unfold logger.message. run. unfold record. cbn. by rewrite <- !app_assoc. }
  destruct (getPreconfigureScript (configuration h)) as [file|]; [|apply NF].
  destruct (JS.truthy file); [|apply NF].
  unfold mbind at 1. unfold M_bind at 1. unfold mbind at 1. unfold M_bind at 1.
  unfold mbind at 1. unfold M_bind at 1. unfold emit at 1, getFiles at 1. cbn [fst snd files].
  unfold mret at 1. unfold M_ret at 1.
  destruct (bool_decide (is_Some (files w !! file))).
  - unfold scriptCommand.
    pose proof capture_output as F.
    destruct (String.eqb (platform h) "win32"); cbn [fst snd];
      unfold util.spawnChildProcess, logger.message in *; run;
      destruct (processes h _ _ _) as [error|output retCode signal]; run;
      rewrite ?F; cbn; try destruct (retCode =? 0)%Z; cbn; unfold record; cbn;
      by rewrite <- !app_assoc.
  - rewrite NF. unfold record. cbn. by rewrite <- !app_assoc.
Qed.

(** X7: a pre-configure script that exists is run through the shell of the
    platform ([cmd /c script] on Windows, [/bin/bash -c "source script"]
    elsewhere) in the workspace root; return code 0 logs success, any other
    code logs the failure and the captured stderr, a spawn error is logged; no
    error message is shown and the script's stdout is dropped. *)
Theorem preconfigure_script_run (h : Host) (w : World) (script : string) :
  getPreconfigureScript (configuration h) = Some script →
  script ≠ "" →
  is_Some (files w !! script) →
  let command := if String.eqb (platform h) "win32" then "cmd" else "/bin/bash" in
  let scriptArgs :=
    if String.eqb (platform h) "win32" then ["/c"; script]
    else ["-c"; JS.dquote +:+ "source " +:+ script +:+ JS.dquote] in
  events (runPreconfigureScript h) w
  = [CheckFileExistsSync script;
     SpawnChildProcess command scriptArgs (JS.orElse (rootPath h) "")]
    ++ match processes h command scriptArgs (JS.orElse (rootPath h) "") with
       | SpawnError error => [LogMessage error]
       | Exit output retCode _ =>
           if (retCode =? 0)%Z
           then [LogMessage "The preconfigure script run successfully."]
           else [LogMessage "The preconfigure script failed. This project may not configure successfully.";
                 LogMessage (stderrOf output)]
       end ∧
  count isPopup (events (runPreconfigureScript h) w) = 0.
Proof.
  intros S N X command scriptArgs.
  pose proof (runPreconfigureScript_run h w) as R. cbv zeta in R.
  apply truthy_true in N. rewrite S, N, bool_decide_eq_true_2 in R by done.
  assert (C : scriptCommand h script = (command, scriptArgs))
    by (unfold scriptCommand; subst command scriptArgs;
        by destruct (String.eqb (platform h) "win32")).
  rewrite C in R. cbn [fst snd] in R.
  rewrite (events_record _ _ _ _ R). split; [done|].
  destruct (processes h command scriptArgs (JS.orElse (rootPath h) ""))
    as [error|output retCode signal]; [done|]. by destruct (retCode =? 0)%Z.
Qed.

Lemma preconfigure_script_run_witness :
  events (runPreconfigureScript Scenario.missingScript)
         (Scenario.world Cases.scriptOnDisk None 0)
  = [CheckFileExistsSync "/ws/configure.sh";
     SpawnChildProcess "/bin/bash"
       ["-c"; JS.dquote +:+ "source " +:+ "/ws/configure.sh" +:+ JS.dquote] "/ws"]
    ++ [LogMessage "spawn ENOENT"] ∧
  count isPopup (events (runPreconfigureScript Scenario.missingScript)
                        (Scenario.world Cases.scriptOnDisk None 0)) = 0.
Proof.
  apply (preconfigure_script_run Scenario.missingScript
           (Scenario.world Cases.scriptOnDisk None 0) "/ws/configure.sh").
  - reflexivity.
  - discriminate.
  - by eexists.
Defined.

(** ** The launcher: the debug session *)

(** Everything [debugCurrentTarget] does when a launch configuration is set. *)
Lemma debugCurrentTarget_run (h : Host) (w : World) :
  is_Some (getCurrentLaunchConfiguration (configuration h)) →
  let config := debugConfigOf h (selectDebugger h (getCompilerFullPath h) w).1 in
  let session := debugSessions h (startFolder h) config in
  debugCurrentTarget h w
  = (session,
     debugging session
       (record (fetched h
                ++ events (selectDebugger h (getCompilerFullPath h)) w
                ++ [StartDebugging (startFolder h) config]) w)).
Proof.
  intros [lc L] config session.
  destruct (selectDebugger_records h (getCompilerFullPath h) w) as (probes & shape & R).
  pose proof (R []) as R0. rewrite record_nil in R0.
  rewrite (events_record _ _ _ _ R0).
  unfold debugCurrentTarget. rewrite L. unfold mbind at 1. unfold M_bind at 1.
  rewrite fetch_compiler_path. unfold mbind at 1. unfold M_bind at 1.
  rewrite R. subst session config.
  unfold vscode.startDebugging, getActiveDebugSession, setActiveDebugSession,
    startFolder, debugConfigOf, debugging, record.
  destruct (workspaceFolders h); run; by rewrite <- !app_assoc.
Qed.

(** Without a launch configuration. *)
Lemma debugCurrentTarget_aborted (h : Host) (w : World) :
  getCurrentLaunchConfiguration (configuration h) = None →
  debugCurrentTarget h w = (None, record [noLaunchError; noLaunchEntry] w).
Proof.
  intros L. unfold debugCurrentTarget. rewrite L.
  unfold vscode.showErrorMessage, logger.message.
  run. unfold record. cbn. by rewrite <- !app_assoc.
Qed.

(** X8: when the guessed debugger is on disk it is kept: the mode of the debug
    configuration is the guessed one and [miDebuggerPath] is exactly the path
    that was probed (left undefined for lldb on macOS); that one file is the
    only one probed. *)
Theorem found_debugger_is_kept (h : Host) (w : World) (directory mode : string) :
  is_Some (getCurrentLaunchConfiguration (configuration h)) →
  let guess := initialGuess h (getCompilerFullPath h) in
  miMode guess = Some mode →
  miDebuggerPath guess = Some directory →
  directory ≠ "" →
  is_Some (files w !! Spec.candidate h directory mode) →
  ∃ config,
    events (debugCurrentTarget h) w
    = [GetCompilerFullPath; CheckFileExistsSync (Spec.candidate h directory mode);
       StartDebugging (startFolder h) config] ∧
    dc_type config = "cppdbg" ∧
    dc_miMode config = Some mode ∧
    dc_miDebuggerPath config
    = (if String.eqb mode "lldb" && String.eqb (platform h) "darwin"
       then None else Some (Spec.candidate h directory mode)).
Proof.
  intros L guess Mo D N Found. subst guess.
  pose proof (debugCurrentTarget_run h w L) as R. cbv zeta in R.
  pose proof (selectDebugger_probe h (getCompilerFullPath h) w directory mode D N Mo) as S.
  cbv zeta in S. rewrite bool_decide_eq_true_2 in S by done.
  rewrite (events_record _ _ _ _ S) in R.
  rewrite (fetched_directory h _ D) in R.
  destruct (guess_directory_mode h _ directory D) as (T & _).
  exists (debugConfigOf h (selectDebugger h (getCompilerFullPath h) w).1).
  split; [|split; [|split]].
  - apply events_of_trace. rewrite R. reflexivity.
  - cbv [debugConfigOf dc_type]. by rewrite S.
  - cbv [debugConfigOf dc_miMode]. by rewrite S.
  - cbv [debugConfigOf dc_miDebuggerPath]. by rewrite S.
Qed.

Lemma found_debugger_is_kept_witness :
  ∃ config,
    events (debugCurrentTarget Scenario.linuxGcc) (Scenario.world Cases.gdbOnly None 0)
    = [GetCompilerFullPath; CheckFileExistsSync (Spec.candidate Scenario.linuxGcc "/usr/bin" "gdb");
       StartDebugging (startFolder Scenario.linuxGcc) config] ∧
    dc_type config = "cppdbg" ∧
    dc_miMode config = Some "gdb" ∧
    dc_miDebuggerPath config
    = (if String.eqb "gdb" "lldb" && String.eqb (platform Scenario.linuxGcc) "darwin"
       then None else Some (Spec.candidate Scenario.linuxGcc "/usr/bin" "gdb")).
Proof.
  apply (found_debugger_is_kept Scenario.linuxGcc (Scenario.world Cases.gdbOnly None 0)
           "/usr/bin" "gdb").
  - by eexists.
  - reflexivity.
  - reflexivity.
  - discriminate.
  - by eexists.
Defined.

(** X9: when no compiler path is known (the extension object is missing, or
    its compiler path is undefined or empty), the debug session is started
    with type cppdbg, mode gdb and no debugger path, on every platform; no
    file is probed, and [getCompilerFullPath] is called only when the
    extension object exists (the optional chain of line 91). *)
Theorem unknown_compiler_debugs_with_gdb (h : Host) (w : World) :
  is_Some (getCurrentLaunchConfiguration (configuration h)) →
  JS.truthyOpt (getCompilerFullPath h) = false →
  events (debugCurrentTarget h) w
  = match extension h with
    | Some _ => [GetCompilerFullPath]
    | None => []
    end
    ++ [StartDebugging (startFolder h)
          (debugConfigOf h {| dbg := "cppdbg"; miMode := Some "gdb"; miDebuggerPath := None |})].
Proof.
  intros L C.
  pose proof (debugCurrentTarget_run h w L) as R. cbv zeta in R.
  pose proof (selectDebugger_no_probe h (getCompilerFullPath h) w) as S. cbv zeta in S.
  rewrite (no_compiler_path_guess h _ C) in S.
  cbn [dbg miMode miDebuggerPath] in S. specialize (S (or_introl eq_refl)).
  rewrite (events_record _ _ _ [] (eq_trans S (f_equal _ (eq_sym (record_nil w))))) in R.
  apply events_of_trace. rewrite R, S. reflexivity.
Qed.

Lemma unknown_compiler_debugs_with_gdb_witness :
  events (debugCurrentTarget Cases.macNoCompiler) (Scenario.world Scenario.lldbOnly None 0)
  = [GetCompilerFullPath;
     StartDebugging (startFolder Cases.macNoCompiler)
       (debugConfigOf Cases.macNoCompiler
          {| dbg := "cppdbg"; miMode := Some "gdb"; miDebuggerPath := None |})] ∧
  events (debugCurrentTarget Cases.noExtension) (Scenario.world Scenario.lldbOnly None 0)
  = [StartDebugging (startFolder Cases.noExtension)
       (debugConfigOf Cases.noExtension
          {| dbg := "cppdbg"; miMode := Some "gdb"; miDebuggerPath := None |})].
Proof.
  split.
  - apply (unknown_compiler_debugs_with_gdb Cases.macNoCompiler
             (Scenario.world Scenario.lldbOnly None 0)).
    + by eexists.
    + reflexivity.
  - apply (unknown_compiler_debugs_with_gdb Cases.noExtension
             (Scenario.world Scenario.lldbOnly None 0)).
    + by eexists.
    + reflexivity.
Defined.

(** A debug session that was started was started by the one call at the end of
    [debugCurrentTarget]. *)
Lemma started_config (h : Host) (w : World)
    (folder : option WorkspaceFolder) (config : DebugConfiguration) :
  StartDebugging folder config ∈ events (debugCurrentTarget h) w →
  is_Some (getCurrentLaunchConfiguration (configuration h)) ∧
  folder = startFolder h ∧
  config = debugConfigOf h (selectDebugger h (getCompilerFullPath h) w).1.
Proof.
  intros Started.
  assert (L : is_Some (getCurrentLaunchConfiguration (configuration h))).
  { destruct (getCurrentLaunchConfiguration (configuration h)) as [lc|] eqn:L; [by eexists|].
    exfalso. rewrite (events_record _ _ _ _ (debugCurrentTarget_aborted h w L)) in Started.
    apply elem_of_cons in Started as [I|I]; [discriminate I|].
    apply list_elem_of_singleton in I. discriminate I. }
  split; [exact L|].
  destruct (debugCurrentTarget_events h w L) as (probes & E & _ & shape).
  rewrite E in Started.
  apply elem_of_app in Started as [I|I].
  { unfold fetched in I. destruct (extension h); [|by apply elem_of_nil in I].
    apply list_elem_of_singleton in I. discriminate I. }
  apply elem_of_app in I as [I|I].
  - destruct shape as [->|[p ->]]; [by apply elem_of_nil in I|].
    apply list_elem_of_singleton in I. discriminate I.
  - apply list_elem_of_singleton in I. by injection I.
Qed.

(** The shape of a debugger choice. *)
Lemma selectDebugger_shape (h : Host) (compilerPath : option string) (w : World) :
  let choice := (selectDebugger h compilerPath w).1 in
  (dbg choice = "cppdbg" ∨ dbg choice = "cppvsdbg") ∧
  (dbg choice = "cppvsdbg" ↔ miMode choice = None) ∧
  (miMode choice = None → miDebuggerPath choice = None) ∧
  (∀ mode, miMode choice = Some mode → mode = "gdb" ∨ mode = "lldb").
Proof.
  cbv zeta.
  assert (G : ∃ d,
             initialGuess h compilerPath
             = {| dbg := "cppvsdbg"; miMode := None; miDebuggerPath := None |} ∨
             initialGuess h compilerPath
             = {| dbg := "cppdbg"; miMode := Some "gdb"; miDebuggerPath := d |} ∨
             initialGuess h compilerPath
             = {| dbg := "cppdbg"; miMode := Some "lldb"; miDebuggerPath := d |}).
  { exists (miDebuggerPath (initialGuess h compilerPath)).
    unfold initialGuess. destruct compilerPath as [p|]; cbn; [|by auto].
    destruct (JS.truthy p); cbn; [|by auto].
    destruct (JS.startsWith (name (path_parse h p)) "clang"); cbn; [by auto|].
    destruct (JS.startsWith (name (path_parse h p)) "cl"); cbn; by auto. }
  pose proof (selectDebugger_no_probe h compilerPath w) as NP.
  pose proof (selectDebugger_probe h compilerPath w) as PR. cbv zeta in NP, PR.
  assert (Shape : ∀ c : DebuggerChoice,
             (dbg c = "cppdbg" ∧ (miMode c = Some "gdb" ∨ miMode c = Some "lldb")) ∨
             (dbg c = "cppvsdbg" ∧ miMode c = None ∧ miDebuggerPath c = None) →
             (dbg c = "cppdbg" ∨ dbg c = "cppvsdbg") ∧
             (dbg c = "cppvsdbg" ↔ miMode c = None) ∧
             (miMode c = None → miDebuggerPath c = None) ∧
             (∀ mode, miMode c = Some mode → mode = "gdb" ∨ mode = "lldb")).
  { intros [t m p]. cbn.
    intros [(-> & [-> | ->]) | (-> & -> & ->)]; repeat split; try done; auto;
      intros mode [= <-]; auto. }
  destruct G as (d & [G|[G|G]]); rewrite G in NP, PR; cbn [dbg miMode miDebuggerPath] in NP, PR.
  - rewrite NP by auto. apply Shape. right. by cbn.
  - destruct d as [d|]; [destruct (String.eqb_spec d "") as [->|N]|].
    + rewrite NP by auto. apply Shape. left. cbn. split; [done | auto].
    + rewrite (PR d "gdb" eq_refl N eq_refl). apply Shape. left.
      unfold Spec.swap.
      destruct (bool_decide (is_Some (files w !! Spec.candidate h d "gdb"))); cbn;
        (split; [done | auto]).
    + rewrite NP by auto. apply Shape. left. cbn. split; [done | auto].
  - destruct d as [d|]; [destruct (String.eqb_spec d "") as [->|N]|].
    + rewrite NP by auto. apply Shape. left. cbn. split; [done | auto].
    + rewrite (PR d "lldb" eq_refl N eq_refl). apply Shape. left.
      unfold Spec.swap.
      destruct (bool_decide (is_Some (files w !! Spec.candidate h d "lldb"))); cbn;
        (split; [done | auto]).
    + rewrite NP by auto. apply Shape. left. cbn. split; [done | auto].
Qed.

(** X10: every debug configuration [debugCurrentTarget] starts is well formed:
    its type is cppdbg or cppvsdbg; the type is cppvsdbg exactly when [miMode]
    is undefined, and then [miDebuggerPath] is undefined too; a defined
    [miMode] is gdb or lldb; its arguments are the launch arguments. *)
Theorem debug_configuration_shape (h : Host) (w : World)
    (folder : option WorkspaceFolder) (config : DebugConfiguration) :
  StartDebugging folder config ∈ events (debugCurrentTarget h) w →
  (dc_type config = "cppdbg" ∨ dc_type config = "cppvsdbg") ∧
  (dc_type config = "cppvsdbg" ↔ dc_miMode config = None) ∧
  (dc_miMode config = None → dc_miDebuggerPath config = None) ∧
  (∀ mode, dc_miMode config = Some mode → mode = "gdb" ∨ mode = "lldb") ∧
  dc_args config = launchTargetArgs h ∧
  dc_request config = "launch".
Proof.
  intros Started. destruct (started_config h w folder config Started) as (_ & _ & ->).
  destruct (selectDebugger_shape h (getCompilerFullPath h) w) as (A & B & C & D).
  cbv [debugConfigOf dc_type dc_miMode dc_miDebuggerPath dc_args dc_request].
  by repeat split; try apply B.
Qed.

Lemma debug_configuration_shape_witness :
  let config :=
    debugConfigOf Scenario.wineCl
      {| dbg := "cppvsdbg"; miMode := None; miDebuggerPath := None |} in
  (dc_type config = "cppdbg" ∨ dc_type config = "cppvsdbg") ∧
  (dc_type config = "cppvsdbg" ↔ dc_miMode config = None) ∧
  (dc_miMode config = None → dc_miDebuggerPath config = None) ∧
  (∀ mode, dc_miMode config = Some mode → mode = "gdb" ∨ mode = "lldb") ∧
  dc_args config = launchTargetArgs Scenario.wineCl ∧
  dc_request config = "launch".
Proof.
  cbv zeta.
  apply (debug_configuration_shape Scenario.wineCl (Scenario.world ∅ None 0) (Some "/ws")).
  vm_compute. apply list_elem_of_further, list_elem_of_here.
Defined.



(** ** The launcher: the terminal *)

(** Everything [runCurrentTarget] does. *)
Lemma runCurrentTarget_run (h : Host) (w : World) :
  runCurrentTarget h w
  = match launchTerminal w with
    | Some t => (t, record (runReport h t) w)
    | None =>
        (terminals w,
         record (CreateTerminal (terminalOptionsOf h) (terminals w)
                 :: runReport h (terminals w)) (created w))
    end.
Proof.
  unfold runCurrentTarget, vscode.createTerminal, vscode.showErrorMessage, logger.message,
    vscode.sendText, vscode.show, getLaunchTerminal, setLaunchTerminal, freshTerminal,
    runReport, terminalCommandOf, terminalOptionsOf, noLaunchError, noLaunchEntry, record,
    created.
  run.
  destruct (launchTerminal w) as [t|] eqn:T;
    destruct (getCurrentLaunchConfiguration (configuration h));
    destruct (String.eqb (platform h) "win32"); run;
    rewrite <- ?app_assoc, ?append_assoc; cbn; rewrite ?T; reflexivity.
Qed.

(** X12: with a launch configuration, [runCurrentTarget] types the binary path
    between double quotes, a space, and the arguments joined by single spaces
    into its terminal, and then shows the terminal; the terminal is created
    first only when none is retained. *)
Theorem run_types_quoted_command (h : Host) (w : World) (lc : LaunchConfiguration) :
  getCurrentLaunchConfiguration (configuration h) = Some lc →
  let t := (runCurrentTarget h w).1 in
  events (runCurrentTarget h) w
  = match launchTerminal w with
    | Some _ => []
    | None => [CreateTerminal (terminalOptionsOf h) t]
    end
    ++ [SendText t (JS.dquote +:+ binary lc +:+ JS.dquote +:+ " "
                    +:+ String.concat " " (args lc));
        ShowTerminal t].
Proof.
  intros L t. subst t. apply events_of_trace. rewrite runCurrentTarget_run.
  unfold runReport, terminalCommandOf, launchTargetPath, launchTargetArgs. rewrite L.
  destruct (launchTerminal w); cbn; by rewrite <- ?app_assoc.
Qed.

Lemma run_types_quoted_command_witness :
  events (runCurrentTarget Scenario.linuxGcc) (Scenario.world ∅ (Some 3) 4)
  = [] ++ [SendText 3 (JS.dquote +:+ "/ws/bin/hello" +:+ JS.dquote +:+ " "
                       +:+ "--verbose input.txt");
           ShowTerminal 3].
Proof.
  apply (run_types_quoted_command Scenario.linuxGcc (Scenario.world ∅ (Some 3) 4)
           Scenario.helloLaunch).
  reflexivity.
Defined.

(** The terminal of [runCurrentTarget]. *)
Lemma run_retains_terminal_aux (h : Host) (w : World) :
  launchTerminal (runCurrentTarget h w).2 = Some (runCurrentTarget h w).1 ∧
  (∀ t, launchTerminal w = Some t → (runCurrentTarget h w).1 = t) ∧
  count isCreate (events (runCurrentTarget h) w)
  = match launchTerminal w with
    | Some _ => 0
    | None => 1
    end ∧
  files (runCurrentTarget h w).2 = files w ∧
  activeDebugSession (runCurrentTarget h w).2 = activeDebugSession w.
Proof.
  pose proof (runCurrentTarget_run h w) as R.
  assert (N : ∀ t, count isCreate (runReport h t) = 0)
    by (intros t; unfold runReport; by destruct (getCurrentLaunchConfiguration _)).
  destruct (launchTerminal w) as [t0|] eqn:T.
  - rewrite (events_record _ _ _ _ R), R, N. cbn. repeat split; try done.
    by intros t [= <-].
  - rewrite (events_of_trace _ _ (CreateTerminal (terminalOptionsOf h) (terminals w)
                                  :: runReport h (terminals w))) by (by rewrite R).
    rewrite R, count_cons, N. by cbn.
Qed.


(** X14: a second [runCurrentTarget] reuses the terminal of the first, even
    under another configuration or platform setting: it returns the same
    terminal and creates none, so the options of the first creation stay. *)
Theorem second_run_reuses_terminal (h h' : Host) (w : World) :
  let first := runCurrentTarget h w in
  let second := runCurrentTarget h' first.2 in
  second.1 = first.1 ∧
  launchTerminal second.2 = launchTerminal first.2 ∧
  count isCreate (events (runCurrentTarget h') first.2) = 0.
Proof.
  cbv zeta.
  destruct (run_retains_terminal_aux h w) as (A & _).
  destruct (run_retains_terminal_aux h' (runCurrentTarget h w).2) as (B & C & D & _).
  rewrite A in D. specialize (C _ A). split; [exact C|]. split; [|exact D].
  by rewrite B, C, A.
Qed.

(** ** The launcher: whole sessions *)

Lemma perform_world (h : Host) (op : LauncherOp) (w : World) :
  (perform h op w).2
  = match op with
    | RunCurrentTarget => (runCurrentTarget h w).2
    | DebugCurrentTarget => (debugCurrentTarget h w).2
    | TerminalClosed term => (onTerminalClose term w).2
    end.
Proof.
  destruct op; [| |done]; unfold perform, mbind, M_bind, skip, mret, M_ret.
  - by destruct (runCurrentTarget h w).
  - by destruct (debugCurrentTarget h w).
Qed.

(** What one operation does to the trace and to the retained terminal. *)
Lemma perform_effect (h : Host) (op : LauncherOp) (w : World) :
  ∃ evs,
    trace (perform h op w).2 = trace w ++ evs ∧
    (terminals w ≤ terminals (perform h op w).2)%nat ∧
    (∀ t text, SendText t text ∈ evs → launchTerminal (perform h op w).2 = Some t) ∧
    (∀ t, launchTerminal (perform h op w).2 = Some t →
          launchTerminal w = Some t ∨ (terminals w ≤ t)%nat) ∧
    count isCreate evs
    = match op, launchTerminal w with
      | RunCurrentTarget, None => 1
      | _, _ => 0
      end ∧
    (op = RunCurrentTarget → is_Some (launchTerminal (perform h op w).2)) ∧
    (op = DebugCurrentTarget → launchTerminal (perform h op w).2 = launchTerminal w).
Proof.
  rewrite perform_world. destruct op as [| |term].
  - rewrite runCurrentTarget_run.
    assert (N : ∀ t, count isCreate (runReport h t) = 0)
      by (intros t; unfold runReport; by destruct (getCurrentLaunchConfiguration _)).
    assert (S : ∀ t0 t text, SendText t text ∈ runReport h t0 → t = t0).
    { intros t0 t text. unfold runReport.
      destruct (getCurrentLaunchConfiguration _); intros I;
        apply elem_of_cons in I as [I|I]; try discriminate I;
        try (by injection I);
        apply list_elem_of_singleton in I; discriminate I. }
    destruct (launchTerminal w) as [t0|] eqn:T.
    + exists (runReport h t0). rewrite N. cbn. rewrite T. repeat split; try done; eauto.
      intros t text I. by rewrite (S _ _ _ I).
    + exists (CreateTerminal (terminalOptionsOf h) (terminals w) :: runReport h (terminals w)).
      rewrite count_cons, N. cbn. repeat split; try done; eauto.
      * intros t text I. apply elem_of_cons in I as [I|I]; [discriminate I|].
        by rewrite (S _ _ _ I).
      * intros t [= <-]. by right.
  - destruct (getCurrentLaunchConfiguration (configuration h)) as [lc|] eqn:L.
    + assert (Set' : is_Some (getCurrentLaunchConfiguration (configuration h))) by (by eexists).
      pose proof (debugCurrentTarget_run h w Set') as R. cbv zeta in R. rewrite R.
      destruct (selectDebugger_records h (getCompilerFullPath h) w) as (probes & shape & P).
      pose proof (P []) as P0. rewrite record_nil in P0.
      rewrite (events_record _ _ _ _ P0).
      set (start := StartDebugging _ _).
      exists (fetched h ++ probes ++ [start]).
      assert (K : count isCreate (fetched h ++ probes ++ [start]) = 0).
      { rewrite !count_app. unfold fetched.
        destruct (extension h); by destruct shape as [->|[p ->]]. }
      rewrite K. cbn. split; [reflexivity|]. repeat split; try done; eauto.
      intros t text I. exfalso.
      apply elem_of_app in I as [I|I].
      { unfold fetched in I. destruct (extension h); [|by apply elem_of_nil in I].
        apply list_elem_of_singleton in I. discriminate I. }
      apply elem_of_app in I as [I|I].
      -- destruct shape as [->|[p ->]]; [by apply elem_of_nil in I|].
         apply list_elem_of_singleton in I. discriminate I.
      -- apply list_elem_of_singleton in I. discriminate I.
    + rewrite (debugCurrentTarget_aborted h w L).
      exists [noLaunchError; noLaunchEntry]. cbn. repeat split; try done; eauto.
      intros t text I. exfalso.
      apply elem_of_cons in I as [I|I]; [discriminate I|].
      apply list_elem_of_singleton in I. discriminate I.
  - exists []. unfold onTerminalClose, getLaunchTerminal, setLaunchTerminal. run.
    rewrite app_nil_r.
    destruct (bool_decide (launchTerminal w = Some term)); run;
      repeat split; try done; eauto.
    + intros t text I. by apply elem_of_nil in I.
    + intros t text I. by apply elem_of_nil in I.
Qed.

(** What a whole session does, for a terminal [t] that is known and not
    retained. *)
Lemma session_effect (h : Host) (ops : list LauncherOp) (w : World) :
  ∃ evs,
    trace (session h ops w).2 = trace w ++ evs ∧
    (∀ t, launchTerminal w ≠ Some t → (t < terminals w)%nat →
          ∀ text, SendText t text ∉ evs) ∧
    (count isCreate evs
     ≤ match launchTerminal w with Some _ => 0 | None => 1 end
       + length (filter (λ op, isClose op = true) ops))%nat.
Proof.
  revert w. induction ops as [|op rest IH]; intros w.
  - exists []. cbn. rewrite app_nil_r. repeat split; [|cbn; lia].
    intros t _ _ text I. by apply elem_of_nil in I.
  - destruct (perform_effect h op w) as (e1 & T1 & M1 & S1 & F1 & C1 & R1 & D1).
    destruct (IH (perform h op w).2) as (e2 & T2 & S2 & C2).
    exists (e1 ++ e2).
    assert (W : (session h (op :: rest) w).2 = (session h rest (perform h op w).2).2).
    { cbn [session]. unfold mbind, M_bind. by destruct (perform h op w). }
    rewrite W, T2, T1, <- app_assoc. split; [done|]. split.
    + intros t NR Issued text I. apply elem_of_app in I as [I|I].
      * apply S1 in I. destruct (F1 t I) as [Same|Fresh]; [done | lia].
      * revert I. apply S2; [|lia].
        intros Same. destruct (F1 t Same) as [Before|Fresh]; [done | lia].
    + rewrite count_app, C1, filter_cons.
      destruct op as [| |term]; case_decide as K; try discriminate K; try (by destruct K).
      * destruct (R1 eq_refl) as [t' E']. rewrite E' in C2.
        destruct (launchTerminal w); lia.
      * rewrite (D1 eq_refl) in C2. destruct (launchTerminal w); lia.
      * cbn [length].
        destruct (launchTerminal (perform h (TerminalClosed term) w).2);
          destruct (launchTerminal w); lia.
Qed.

(** X15: once a terminal has been closed, nothing the launcher does later
    sends text to it, whatever commands and close notifications follow. *)
Theorem closed_terminal_never_written (h : Host) (w : World) (t : Terminal)
    (ops : list LauncherOp) :
  (t < terminals w)%nat →
  let closed := (onTerminalClose t w).2 in
  ∀ text, SendText t text ∉ events (session h ops) closed.
Proof.
  intros Issued closed text.
  destruct (session_effect h ops closed) as (evs & T & S & _).
  rewrite (events_of_trace _ _ _ T). apply S.
  - subst closed. unfold onTerminalClose, getLaunchTerminal, setLaunchTerminal. run.
    destruct (bool_decide (launchTerminal w = Some t)) eqn:B; run; [done|].
    by apply bool_decide_eq_false in B.
  - subst closed. unfold onTerminalClose, getLaunchTerminal, setLaunchTerminal. run.
    by destruct (bool_decide (launchTerminal w = Some t)).
Qed.

Lemma closed_terminal_never_written_witness :
  SendText 0 (terminalCommandOf Scenario.linuxGcc)
  ∉ events (session Scenario.linuxGcc
              [RunCurrentTarget; DebugCurrentTarget; TerminalClosed 1; RunCurrentTarget])
           (onTerminalClose 0 (Scenario.world ∅ (Some 0) 1)).2.
Proof.
  apply (closed_terminal_never_written Scenario.linuxGcc (Scenario.world ∅ (Some 0) 1) 0
           [RunCurrentTarget; DebugCurrentTarget; TerminalClosed 1; RunCurrentTarget]).
  cbn. lia.
Defined.

(** X16: over any session the launcher creates at most one terminal more than
    terminals were closed, and none more than were closed when it starts with
    a retained terminal: it never holds two terminals. *)
Theorem terminals_created_bounded (h : Host) (w : World) (ops : list LauncherOp) :
  (count isCreate (events (session h ops) w)
   ≤ match launchTerminal w with Some _ => 0 | None => 1 end
     + length (filter (λ op, isClose op = true) ops))%nat.
Proof.
  destruct (session_effect h ops w) as (evs & T & _ & C).
  by rewrite (events_of_trace _ _ _ T).
Qed.

(** ** The launcher: arguments as one string *)

Lemma concat_cons (sep x : string) (l : list string) :
  String.concat sep (x :: l)
  = match l with
    | [] => x
    | _ => x +:+ sep +:+ String.concat sep l
    end.
Proof. by destruct l. Qed.

Lemma concat_merge (before after : list string) (a b : string) :
  String.concat " " (before ++ a :: b :: after)
  = String.concat " " (before ++ (a +:+ " " +:+ b) :: after).
Proof.
  induction before as [|x before IH].
  - cbn [app]. rewrite (concat_cons _ a), (concat_cons _ b), (concat_cons _ (a +:+ " " +:+ b)).
    destruct after as [|y after]; [done|]. by rewrite !append_assoc.
  - cbn [app]. rewrite (concat_cons _ x (before ++ a :: b :: after)),
      (concat_cons _ x (before ++ (a +:+ " " +:+ b) :: after)), IH.
    by destruct before.
Qed.

(** X17: the arguments joined into one string do not keep their boundaries: an
    argument that contains a space gives the same [launchTargetArgsConcat], and
    the same command line typed by [runCurrentTarget], as the two arguments it
    would split into. *)
Theorem joined_arguments_lose_boundaries (h1 h2 : Host) (lc1 lc2 : LaunchConfiguration)
    (before after : list string) (a b : string) :
  getCurrentLaunchConfiguration (configuration h1) = Some lc1 →
  getCurrentLaunchConfiguration (configuration h2) = Some lc2 →
  binary lc1 = binary lc2 →
  args lc1 = before ++ a :: b :: after →
  args lc2 = before ++ (a +:+ " " +:+ b) :: after →
  launchTargetArgsConcat h1 = launchTargetArgsConcat h2 ∧
  ∀ w t, launchTerminal w = Some t →
         events (runCurrentTarget h1) w = events (runCurrentTarget h2) w.
Proof.
  intros L1 L2 B A1 A2.
  assert (J : launchTargetArgsConcat h1 = launchTargetArgsConcat h2).
  { unfold launchTargetArgsConcat, launchTargetArgs, JS.join. rewrite L1, L2, A1, A2.
    apply concat_merge. }
  split; [exact J|]. intros w t T.
  assert (R : ∀ h, events (runCurrentTarget h) w = runReport h t).
  { intros h. apply events_of_trace. by rewrite runCurrentTarget_run, T. }
  rewrite !R. unfold runReport, terminalCommandOf, launchTargetPath.
  fold (launchTargetArgsConcat h1). fold (launchTargetArgsConcat h2).
  by rewrite L1, L2, B, J.
Qed.

Lemma joined_arguments_lose_boundaries_witness :
  launchTargetArgsConcat Scenario.linuxGcc = launchTargetArgsConcat Cases.oneArgument ∧
  ∀ w t, launchTerminal w = Some t →
         events (runCurrentTarget Scenario.linuxGcc) w
         = events (runCurrentTarget Cases.oneArgument) w.
Proof.
  apply (joined_arguments_lose_boundaries Scenario.linuxGcc Cases.oneArgument
           Scenario.helloLaunch
           {| binary := "/ws/bin/hello"; cwd := "/ws"; args := ["--verbose input.txt"] |}
           [] [] "--verbose" "input.txt").
  - reflexivity.
  - reflexivity.
  - reflexivity.
  - reflexivity.
  - reflexivity.
Defined.

(** ** The files *)

(** The events of [parseBuild] hold no write and no spawn. *)
Lemma parseBuild_no_write (h : Host) (w : World) :
  ∀ e, e ∈ events (parseBuild h) w → isWrite e || isSpawn e = false.
Proof.
  intros e. pose proof (parseBuild_run h w) as R.
  destruct (getConfigurationBuildLog (configuration h)) as [file|];
    [destruct (JS.truthy file);
     [destruct (files w !! file) as [content|]; [destruct (JS.truthy content)|]|]|];
    rewrite (events_record _ _ _ _ R); intros I;
    repeat (apply elem_of_cons in I as [->|I]; [done|]);
    by apply elem_of_nil in I.
Qed.

(** When a build log was parsed, the events are those of [parseBuild]. *)
Lemma parseBuildOrDryRun_parsed_events (h : Host) (w : World) :
  (parseBuild h w).1 = true →
  events (parseBuildOrDryRun h) w = events (parseBuild h) w.
Proof.
  intros E. unfold events. by rewrite parseBuildOrDryRun_parsed.
Qed.

(** X18: the dry-run cache is the only file this code ever writes: every
    [fs.writeFileSync] call of [parseBuildOrDryRun] names the cache path,
    there is at most one, and none unless the dry run was spawned;
    [runPreconfigureScript], [parseBuild] and [prepareBuildCurrentTarget]
    call [fs.writeFileSync] not at all. *)
Theorem only_the_cache_file_is_written (h : Host) (w : World) :
  (∀ path content,
     WriteFileSync path content ∈ events (parseBuildOrDryRun h) w →
     path = getDryrunCache (configuration h)) ∧
  (count isWrite (events (parseBuildOrDryRun h) w)
   ≤ count isSpawn (events (parseBuildOrDryRun h) w) ≤ 1)%nat ∧
  count isWrite (events (runPreconfigureScript h) w) = 0 ∧
  count isWrite (events (parseBuild h) w) = 0 ∧
  count isWrite (events (prepareBuildCurrentTarget h) w) = 0.
Proof.
  pose proof (parseBuild_no_write h w) as NW.
  assert (P : ∀ t, (∀ e, e ∈ t → isWrite e || isSpawn e = false) →
                   count isWrite t = 0 ∧ count isSpawn t = 0).
  { induction t as [|e t IH]; [done|]. intros A. rewrite !count_cons.
    destruct (orb_false_elim _ _ (A e (list_elem_of_here _ _))) as [-> ->].
    apply IH. intros e' I. apply A. by apply list_elem_of_further. }
  destruct (P _ NW) as [W0 S0].
  split; [|split; [|split; [|split]]].
  - intros path content I. destruct (parseBuild h w).1 eqn:E.
    + rewrite parseBuildOrDryRun_parsed_events in I by done.
      by apply NW in I.
    + destruct (parseBuildOrDryRun_dry_run_events h w E) as (T & _ & _). cbv zeta in T.
      rewrite T in I. apply elem_of_app in I as [I|I]; [by apply NW in I|].
      apply elem_of_app in I as [I|I].
      { apply elem_of_cons in I as [I|I]; [discriminate I|].
        apply list_elem_of_singleton in I. discriminate I. }
      destruct (processes h _ _ _) as [error|output retCode signal].
      { apply list_elem_of_singleton in I. discriminate I. }
      apply elem_of_app in I as [I|I].
      { destruct (retCode =? 0)%Z; [by apply elem_of_nil in I|].
        repeat (apply elem_of_cons in I as [I|I]; [discriminate I|]).
        by apply elem_of_nil in I. }
      apply elem_of_cons in I as [I|I]; [by injection I|].
      destruct (writeFailure h _) as [failure|];
        [destruct (rejectsCallbackErrors h)|];
        try (by apply elem_of_nil in I);
        apply list_elem_of_singleton in I; discriminate I.
  - destruct (parseBuild h w).1 eqn:E.
    + rewrite parseBuildOrDryRun_parsed_events by done.
      rewrite W0, S0. lia.
    + destruct (parseBuildOrDryRun_dry_run_events h w E) as (T & _ & _).
      cbv zeta in T. rewrite T, !count_app, W0, S0.
      destruct (processes h _ _ _) as [error|output retCode signal];
        [rewrite !count_cons; cbn; lia|].
      rewrite !count_app.
      destruct (writeFailure h _) as [failure|];
        [destruct (rejectsCallbackErrors h)|];
        destruct (retCode =? 0)%Z; rewrite !count_cons; cbn; lia.
  - rewrite (events_record _ _ _ _ (runPreconfigureScript_run h w)).
    destruct (getPreconfigureScript (configuration h)) as [file|]; [|done].
    destruct (JS.truthy file); [|done].
    rewrite count_cons.
    destruct (bool_decide (is_Some (files w !! file))); [|done].
    rewrite count_cons.
    destruct (processes h _ _ _) as [error|output retCode signal]; [done|].
    by destruct (retCode =? 0)%Z.
  - exact W0.
  - by rewrite (events_record _ _ _ _ (prepareBuildCurrentTarget_run h w)).
Qed.

Lemma only_the_cache_file_is_written_witness :
  "/ws/.vscode/dryrun.log" = getDryrunCache (configuration Scenario.linuxGcc).
Proof.
  apply (proj1 (only_the_cache_file_is_written Scenario.linuxGcc
                  (Scenario.world Scenario.lldbOnly None 0))
           "/ws/.vscode/dryrun.log" "cc -c a.c; cc -c b.c; ").
  vm_compute. do 5 apply list_elem_of_further. apply list_elem_of_here.
Defined.

